(** * abi-indexer: the gRPC module's server (pkg/modules/grpc/server.go)

    A shallow embedding of the handlers and of the connection-stats hook of
    [Server], and the properties of the connection registry, of the metadata
    subscription and of the query handlers.

    Go values are modelled as follows.
    - [uint64] fields are [Z]; they are only copied, never computed with.
    - A Go result pair [(v, err)] is a pair of options: [nil] is [None].
    - The [*Subscriptions] pointers kept in [module.subscribers] are modelled
      by the map itself: the bundle of a connection is the value under its
      key, and a field assignment through the pointer rewrites that value.
    - The event channels a bundle refers to live in a heap ([chans]) and are
      named by their index, so that a reference captured by a running
      dispatch loop and the reference held by the bundle can be told apart.
    - Handlers run in a small state monad over [World]; a call can return,
      panic, or park the goroutine (on the mutex or in a [select]). *)

From Stdlib Require Import ZArith Lia.
From stdpp Require Import base gmap strings list.

Local Open Scope Z_scope.
Local Open Scope string_scope.
Local Open Scope list_scope.

(** ** Errors *)

(** Go's [error] values met by the server: the sentinel [io.EOF], errors built
    by [errors.New] / [errors.Errorf], and errors coming from a collaborator
    (storage, transport).  [err == io.EOF] is true of the sentinel only. *)
Inductive error : Type :=
  | io_EOF
  | errors_New (msg : string)
  | foreign_error (descr : string).

(** [errors.Errorf("unknown subscriber: %s", id)] *)
Definition errors_Errorf_unknown_subscriber (id : string) : error :=
  errors_New ("unknown subscriber: " +:+ id).

(** ** time *)

Module time.
(** [time.Duration] counts nanoseconds. *)
Definition Duration := Z.
Definition Second : Duration := 1000000000.
End time.

(** ** context *)

Module context.

(** A dynamic value stored in a context ([interface{}]). *)
Inductive any : Type :=
  | any_string (s : string)
  | any_other (descr : string).

(** Context keys are compared with their type: a [contextKey] never equals
    a key of another package. *)
Inductive key : Type :=
  | contextKey (s : string)
  | other_key (descr : string).

#[global] Instance key_eq_dec : EqDecision key.
Proof. solve_decision. Defined.

(** What the server observes of a [context.Context]: the values attached to
    it (innermost first), the time left before its deadline, if it has one,
    and whether it is already done. *)
Record Context : Type := mkContext {
  values : list (key * any);
  timeout : option time.Duration;
  done_ : bool
}.

Definition Background : Context :=
  {| values := []; timeout := None; done_ := false |}.

(** [ctx.Value(k)]: the innermost value under [k], [nil] when there is none. *)
Fixpoint lookup_value (k : key) (vs : list (key * any)) : option any :=
  match vs with
  | [] => None
  | (k', v) :: vs' => if decide (k = k') then Some v else lookup_value k vs'
  end.

Definition Value (ctx : Context) (k : key) : option any :=
  lookup_value k (values ctx).

(** [context.WithValue(ctx, k, v)] *)
Definition WithValue (ctx : Context) (k : key) (v : any) : Context :=
  {| values := (k, v) :: values ctx; timeout := timeout ctx; done_ := done_ ctx |}.

(** [context.WithTimeout(ctx, d)]: the deadline of the child is the earlier
    of the parent's deadline and [d] from now. *)
Definition WithTimeout (ctx : Context) (d : time.Duration) : Context :=
  {| values := values ctx;
     timeout := Some (match timeout ctx with
                      | Some p => Z.min p d
                      | None => d
                      end);
     done_ := done_ ctx |}.

End context.

(** ** server.go: constants *)

Definition successMessage : string := "success".

Definition clientID : context.key := context.contextKey "client_id".

(** ** pb: the wire messages *)

Module pb.

(** Modelled from the spec: the generated package [pb] is not among the
    sources.  The wire shape is [Page{limit, offset, order∈{ASC,DESC}}];
    a protobuf enum is an [int32], so a peer may also send a number that
    names neither: [SortOrder_other]. *)
Inductive SortOrder : Type :=
  | SortOrder_ASC
  | SortOrder_DESC
  | SortOrder_other (n : Z).

Record Page : Type := mkPage {
  Limit : Z;
  Offset : Z;
  Order : SortOrder
}.

Record DefaultRequest : Type := mkDefaultRequest { Id : string }.

Record HelloRequest : Type := mkHelloRequest { }.

Record HelloResponse : Type := mkHelloResponse { HelloResponse_Id : string }.

Record Message : Type := mkMessage { Message_ : string }.

Record GetMetadataRequest : Type := mkGetMetadataRequest { Address : string }.

Record ListMetadataRequest : Type := mkListMetadataRequest {
  ListMetadataRequest_Page : option Page
}.

Record GetMetadataByMethodSinatureRequest : Type := mkBySignature {
  BySignature_Page : option Page;
  Signature : string
}.

Record GetMetadataByTopicRequest : Type := mkByTopic {
  ByTopic_Page : option Page;
  Topic : string
}.

(** The generated getters are nil-safe: [req.GetPage()] of a nil request is
    nil. *)
Definition ListMetadataRequest_GetPage (req : option ListMetadataRequest) : option Page :=
  match req with
  | Some r => ListMetadataRequest_Page r
  | None => None
  end.

Definition BySignature_GetPage (req : option GetMetadataByMethodSinatureRequest) : option Page :=
  match req with
  | Some r => BySignature_Page r
  | None => None
  end.

Definition ByTopic_GetPage (req : option GetMetadataByTopicRequest) : option Page :=
  match req with
  | Some r => ByTopic_Page r
  | None => None
  end.

End pb.

(** ** storage: the external collaborator *)

Module storage.

(** The package [internal/storage] is not among the sources; the server
    uses its record type, its sort orders and the zero value of
    [SortOrder] (what [new(page)] leaves in [order]).  They are taken as
    an interface. *)
Class Types : Type := {
  Metadata : Type;
  SortOrder : Type;
  SortOrderAsc : SortOrder;
  SortOrderDesc : SortOrder;
  SortOrder_zero : SortOrder
}.

(** The methods of [module.storage.Metadata] the handlers call.  A call is
    an oracle: its answer depends on the context and the arguments. *)
Record IMetadata `{Types} : Type := mkIMetadata {
  GetByAddress : context.Context -> string -> option Metadata * option error;
  List : context.Context -> Z -> Z -> SortOrder -> list Metadata * option error;
  GetByMethodSinature :
    context.Context -> string -> Z -> Z -> SortOrder -> list Metadata * option error;
  GetByTopic :
    context.Context -> string -> Z -> Z -> SortOrder -> list Metadata * option error
}.

Record Storage `{Types} : Type := mkStorage { Metadata_ : IMetadata }.

(** A storage call as the collaborator sees it. *)
Inductive Call `{Types} : Type :=
  | CallGetByAddress (ctx : context.Context) (address : string)
  | CallList (ctx : context.Context) (limit offset : Z) (order : SortOrder)
  | CallGetByMethodSinature (ctx : context.Context) (signature : string)
      (limit offset : Z) (order : SortOrder)
  | CallGetByTopic (ctx : context.Context) (topic : string)
      (limit offset : Z) (order : SortOrder).

End storage.

(** ** subscriptions: bundles and event channels *)

Module subscriptions.

(** A reference to an event channel: its index in the heap of channels. *)
Definition ChanRef := nat.

Inductive ChanState : Type := ChanOpen | ChanClosed.

#[global] Instance ChanState_eq_dec : EqDecision ChanState.
Proof. solve_decision. Defined.

(** The per-connection bundle: [Subscriptions{ID, Metadata}], one optional
    channel reference per category. *)
Record Subscriptions : Type := mkSubscriptions {
  ID : string;
  Metadata : option ChanRef
}.

(** Modelled from the spec: [subscriptions.NewMetadata] is not among the
    sources.  "create(converter) — allocates the channel": a fresh, open
    channel is added to the heap and no other channel is touched. *)
Definition NewMetadata (chans : list ChanState) : ChanRef * list ChanState :=
  (List.length chans, chans ++ [ChanOpen]).

(** Closing one channel of the heap. *)
Definition close_chan (ch : ChanRef) (chans : list ChanState) : list ChanState :=
  <[ch := ChanClosed]> chans.

(** Modelled from the spec: the bundle method [Subscriptions.Close] is not among the
    sources.  "release every active Event Channel it holds"; [close] is
    idempotent and reports no error. *)
Definition Close (s : Subscriptions) (chans : list ChanState)
  : option error * list ChanState :=
  match Metadata s with
  | Some ch => (None, close_chan ch chans)
  | None => (None, chans)
  end.

End subscriptions.

(** ** stats *)

Module stats.
(** The dynamic type of a [stats.ConnStats] value: [*ConnBegin], [*ConnEnd],
    or anything else (a nil interface included). *)
Inductive ConnStats : Type := ConnBegin | ConnEnd | ConnStats_other.
End stats.

(** ** The server and the world it runs in *)

(** The wire record type and the response type of the generated package, and
    the two converters of package [grpc] that build them ([Metadata] and
    [ListMetadataResponse], defined beside server.go); none of them is among
    the sources, and the handlers only pass their values on. *)
Class Wire `{storage.Types} : Type := {
  pb_Metadata : Type;
  pb_ListMetadataResponse : Type;
  Metadata : option storage.Metadata -> option pb_Metadata;
  ListMetadataResponse : list storage.Metadata -> option pb_ListMetadataResponse
}.

(** One line written through zerolog: [log.Err(err).Msg(msg)]. *)
Record LogEntry : Type := mkLogEntry {
  log_err : error;
  log_msg : string
}.

(** Where a goroutine is parked when a call does not return. *)
Inductive Wait : Type :=
  | OnMutex     (* in [subsMx.Lock()], the mutex being held *)
  | OnSelect.   (* in the [select] of the dispatch loop, nothing being ready *)

Inductive Outcome (A : Type) : Type :=
  | Returned (a : A)
  | Panicked (msg : string)
  | Parked (w : Wait).

Arguments Returned {A} a.
Arguments Panicked {A} msg.
Arguments Parked {A} w.

Section Server.

Context `{ST : storage.Types} `{W : !Wire}.

(** The fields of [Server] that server.go uses.  [subsMx] is [true] while
    the mutex is held. *)
Record Server : Type := mkServer {
  storage : storage.Storage;
  subscribers : gmap string subscriptions.Subscriptions;
  subsMx : bool
}.

(** The server together with what its calls act on: the heap of event
    channels, the log, and the calls made to the storage collaborator. *)
Record World : Type := mkWorld {
  module : Server;
  chans : list subscriptions.ChanState;
  log : list LogEntry;
  calls : list storage.Call
}.

Definition set_subscribers (m : gmap string subscriptions.Subscriptions) (w : World) : World :=
  {| module := {| storage := storage (module w);
                  subscribers := m;
                  subsMx := subsMx (module w) |};
     chans := chans w; log := log w; calls := calls w |}.

Definition set_subsMx (b : bool) (w : World) : World :=
  {| module := {| storage := storage (module w);
                  subscribers := subscribers (module w);
                  subsMx := b |};
     chans := chans w; log := log w; calls := calls w |}.

Definition set_chans (c : list subscriptions.ChanState) (w : World) : World :=
  {| module := module w; chans := c; log := log w; calls := calls w |}.

Definition add_log (e : LogEntry) (w : World) : World :=
  {| module := module w; chans := chans w; log := log w ++ [e]; calls := calls w |}.

Definition add_call (c : storage.Call) (w : World) : World :=
  {| module := module w; chans := chans w; log := log w; calls := calls w ++ [c] |}.

(** *** The monad of calls *)

Definition M (A : Type) : Type := World -> Outcome A * World.

Definition ret {A} (a : A) : M A := fun w => (Returned a, w).

Definition bind {A B} (m : M A) (k : A -> M B) : M B :=
  fun w =>
    match m w with
    | (Returned a, w') => k a w'
    | (Panicked msg, w') => (Panicked msg, w')
    | (Parked on, w') => (Parked on, w')
    end.

Definition panic {A} (msg : string) : M A := fun w => (Panicked msg, w).

Definition park {A} (on : Wait) : M A := fun w => (Parked on, w).

Definition get : M World := fun w => (Returned w, w).

Definition modify (f : World -> World) : M unit := fun w => (Returned tt, f w).

#[global] Instance M_ret : MRet M := @ret.
#[global] Instance M_bind : MBind M := fun A B k m => bind m k.


(** *** The mutex *)

(** [module.subsMx.Lock()]: parks while the mutex is held. *)
Definition Lock : M unit :=
  fun w => if subsMx (module w) then (Parked OnMutex, w)
           else (Returned tt, set_subsMx true w).

(** [module.subsMx.Unlock()]: unlocking a free mutex is a fatal error. *)
Definition Unlock : M unit :=
  fun w => if subsMx (module w) then (Returned tt, set_subsMx false w)
           else (Panicked "sync: unlock of unlocked mutex", w).

(** *** Effects on the world *)

Definition log_Err (err : error) (msg : string) : M unit :=
  modify (add_log {| log_err := err; log_msg := msg |}).

(** [subscriptions.NewMetadata()] *)
Definition NewMetadata : M subscriptions.ChanRef :=
  fun w => let (ch, c) := subscriptions.NewMetadata (chans w) in
           (Returned ch, set_chans c w).

(** [subs.Close()] *)
Definition Close (subs : subscriptions.Subscriptions) : M (option error) :=
  fun w => let (err, c) := subscriptions.Close subs (chans w) in
           (Returned err, set_chans c w).

(** [subs.Metadata = v], for the bundle [subs] registered under [id]. *)
Definition store_Metadata (id : string) (v : option subscriptions.ChanRef) : M unit :=
  modify (fun w =>
    set_subscribers
      (alter (fun s => {| subscriptions.ID := subscriptions.ID s;
                          subscriptions.Metadata := v |}) id
             (subscribers (module w))) w).

(** *** newPage *)

Record page : Type := mkpage {
  limit : Z;
  offset : Z;
  order : storage.SortOrder
}.

(** [new(page)]: every field holds its zero value. *)
Definition new_page : page :=
  {| limit := 0; offset := 0; order := storage.SortOrder_zero |}.

Definition newPage (req : option pb.Page) : page :=
  match req with
  | Some r =>
      {| limit := pb.Limit r;
         offset := pb.Offset r;
         order := match pb.Order r with
                  | pb.SortOrder_ASC => storage.SortOrderAsc
                  | pb.SortOrder_DESC => storage.SortOrderDesc
                  | _ => storage.SortOrderAsc
                  end |}
  | None => new_page
  end.

(** *** Handlers *)

(** [x.(string)] on a value read from a context. *)
Definition assert_string (v : option context.any) : M string :=
  match v with
  | Some (context.any_string s) => ret s
  | Some (context.any_other d) =>
      panic ("interface conversion: interface {} is " +:+ d +:+ ", not string")
  | None => panic "interface conversion: interface {} is nil, not string"
  end.

Definition Hello (ctx : context.Context) (req : option pb.HelloRequest)
  : M (option pb.HelloResponse * option error) :=
  let id := context.Value ctx clientID in
  match id with
  | None => ret (None, Some (errors_New "unknown client"))
  | Some _ =>
      s ← assert_string id;
      ret (Some {| pb.HelloResponse_Id := s |}, None)
  end.

Definition getSubscriber (id : string)
  : M (option subscriptions.Subscriptions * option error) :=
  w ← get;
  match subscribers (module w) !! id with
  | None => ret (None, Some (errors_Errorf_unknown_subscriber id))
  | Some s => ret (Some s, None)
  end.

(** What one [select] of the dispatch loop meets: the stream's context is
    done, or the channel yields a message and [stream.Send] answers
    [sent]. *)
Inductive Select : Type :=
  | CtxDone
  | Recv (msg : option pb_Metadata) (sent : option error).

(** The loop of [SubscribeOnMetadata] over the channel captured in
    [metadataSub], run against what its successive [select]s meet; when
    nothing more is ready the goroutine stays parked in the [select]. *)
Fixpoint dispatch (metadataSub : subscriptions.ChanRef) (stream : list Select)
  : M (option error) :=
  match stream with
  | [] => park OnSelect
  | CtxDone :: _ => ret None
  | Recv msg None :: rest => dispatch metadataSub rest
  | Recv msg (Some err) :: rest =>
      match err with
      | io_EOF => ret None
      | _ => log_Err err "sending message error";; dispatch metadataSub rest
      end
  end.

Definition SubscribeOnMetadata (req : pb.DefaultRequest) (stream : list Select)
  : M (option error) :=
  Lock;;
  r ← getSubscriber (pb.Id req);
  match snd r with
  | Some err => ret (Some err)
  | None =>
      ch ← NewMetadata;
      store_Metadata (pb.Id req) (Some ch);;
      Unlock;;
      dispatch ch stream
  end.

Definition UnsubscribeFromMetadata (ctx : context.Context) (req : pb.DefaultRequest)
  : M (option pb.Message * option error) :=
  Lock;;
  r ← getSubscriber (pb.Id req);
  match snd r with
  | Some err => ret (None, Some err)
  | None =>
      store_Metadata (pb.Id req) None;;
      Unlock;;
      ret (Some {| pb.Message_ := successMessage |}, None)
  end.

(** Calls to the storage collaborator: the answer is the oracle's, and the
    call is recorded. *)
Definition call_GetByAddress (ctx : context.Context) (address : string)
  : M (option storage.Metadata * option error) :=
  fun w => (Returned (storage.GetByAddress (storage.Metadata_ (storage (module w))) ctx address),
            add_call (storage.CallGetByAddress ctx address) w).

Definition call_List (ctx : context.Context) (l o : Z) (ord : storage.SortOrder)
  : M (list storage.Metadata * option error) :=
  fun w => (Returned (storage.List (storage.Metadata_ (storage (module w))) ctx l o ord),
            add_call (storage.CallList ctx l o ord) w).

Definition call_GetByMethodSinature (ctx : context.Context) (sig : string)
    (l o : Z) (ord : storage.SortOrder)
  : M (list storage.Metadata * option error) :=
  fun w => (Returned (storage.GetByMethodSinature (storage.Metadata_ (storage (module w)))
                        ctx sig l o ord),
            add_call (storage.CallGetByMethodSinature ctx sig l o ord) w).

Definition call_GetByTopic (ctx : context.Context) (topic : string)
    (l o : Z) (ord : storage.SortOrder)
  : M (list storage.Metadata * option error) :=
  fun w => (Returned (storage.GetByTopic (storage.Metadata_ (storage (module w)))
                        ctx topic l o ord),
            add_call (storage.CallGetByTopic ctx topic l o ord) w).

(** [defer cancel()] only releases the timer of [reqCtx]. *)
Definition GetMetadata (ctx : context.Context) (req : option pb.GetMetadataRequest)
  : M (option pb_Metadata * option error) :=
  match req with
  | None => ret (None, Some (errors_New "invalid request"))
  | Some r =>
      let reqCtx := context.WithTimeout ctx (time.Second * 10) in
      res ← call_GetByAddress reqCtx (pb.Address r);
      match snd res with
      | Some err => ret (None, Some err)
      | None => ret (Metadata (fst res), None)
      end
  end.

Definition ListMetadata (ctx : context.Context) (req : option pb.ListMetadataRequest)
  : M (option pb_ListMetadataResponse * option error) :=
  let p := newPage (pb.ListMetadataRequest_GetPage req) in
  res ← call_List ctx (limit p) (offset p) (order p);
  match snd res with
  | Some err => ret (None, Some err)
  | None => ret (ListMetadataResponse (fst res), None)
  end.

Definition nil_dereference : string :=
  "runtime error: invalid memory address or nil pointer dereference".

(** [req.Signature] and [req.Topic] read a field of the request: a nil
    request panics there, after [newPage] and before the storage call. *)
Definition GetMetadataByMethodSinature (ctx : context.Context)
    (req : option pb.GetMetadataByMethodSinatureRequest)
  : M (option pb_ListMetadataResponse * option error) :=
  let p := newPage (pb.BySignature_GetPage req) in
  match req with
  | None => panic nil_dereference
  | Some r =>
      res ← call_GetByMethodSinature ctx (pb.Signature r) (limit p) (offset p) (order p);
      match snd res with
      | Some err => ret (None, Some err)
      | None => ret (ListMetadataResponse (fst res), None)
      end
  end.

Definition GetMetadataByTopic (ctx : context.Context)
    (req : option pb.GetMetadataByTopicRequest)
  : M (option pb_ListMetadataResponse * option error) :=
  let p := newPage (pb.ByTopic_GetPage req) in
  match req with
  | None => panic nil_dereference
  | Some r =>
      res ← call_GetByTopic ctx (pb.Topic r) (limit p) (offset p) (order p);
      match snd res with
      | Some err => ret (None, Some err)
      | None => ret (ListMetadataResponse (fst res), None)
      end
  end.

(** *** Stats *)

Definition TagRPC (ctx : context.Context) : context.Context := ctx.

Definition HandleRPC (ctx : context.Context) : M unit := ret tt.

(** [randomString] is defined beside server.go and is not among the
    sources: [TagConn] takes what [randomString(32)] answered. *)
Definition TagConn (random : string * option error) (ctx : context.Context)
  : M context.Context :=
  match snd random with
  | Some err => log_Err err "invalid random string"
  | None => ret tt
  end;;
  ret (context.WithValue ctx clientID (context.any_string (fst random))).

Definition HandleConn (ctx : context.Context) (s : stats.ConnStats) : M unit :=
  id ← assert_string (context.Value ctx clientID);
  match s with
  | stats.ConnEnd =>
      Lock;;
      w ← get;
      match subscribers (module w) !! id with
      | Some subs =>
          err ← Close subs;
          match err with
          | Some e => log_Err e "closing subscriber"
          | None => ret tt
          end;;
          modify (fun w => set_subscribers (delete id (subscribers (module w))) w)
      | None => ret tt
      end;;
      Unlock
  | stats.ConnBegin =>
      Lock;;
      w ← get;
      match subscribers (module w) !! id with
      | None =>
          modify (fun w =>
            set_subscribers
              (<[id := {| subscriptions.ID := id; subscriptions.Metadata := None |}]>
                 (subscribers (module w))) w)
      | Some _ => ret tt
      end;;
      Unlock
  | stats.ConnStats_other => ret tt
  end.

End Server.

(** ** A concrete collaborator, for running the handlers *)

Module Fixture.

(** Sort orders kept as strings, ["asc"] and ["desc"]: the zero value of
    such a type is the empty string, which is neither of them. *)
Definition types : storage.Types :=
  {| storage.Metadata := string;
     storage.SortOrder := string;
     storage.SortOrderAsc := "asc";
     storage.SortOrderDesc := "desc";
     storage.SortOrder_zero := "" |}.

Definition wire : @Wire types :=
  Build_Wire types string (list string) (fun m => m) (fun l => Some l).

(** A storage that knows one address and fails on every other lookup. *)
Definition store : @storage.Storage types :=
  @storage.mkStorage types
    (@storage.mkIMetadata types
       (fun _ a => if decide (a = "0xabc") then (Some "abi", None)
                   else (None, Some (foreign_error "no rows in result set")))
       (fun _ _ _ _ => (["abi"], None))
       (fun _ _ _ _ _ => ([], None))
       (fun _ _ _ _ _ => ([], None))).

Definition world (subs : gmap string subscriptions.Subscriptions) (mx : bool)
    (c : list subscriptions.ChanState) : @World types :=
  {| module := {| storage := store; subscribers := subs; subsMx := mx |};
     chans := c; log := []; calls := [] |}.

(** A freshly started server: nobody connected, the mutex free. *)
Definition idle : @World types := world ∅ false [].

(** The context of a connection tagged with [id]. *)
Definition tagged (id : string) : context.Context :=
  context.WithValue context.Background clientID (context.any_string id).

(** One connection, ["c1"], subscribed to metadata through channel 0. *)
Definition subscribed : @World types :=
  world {[ "c1" := {| subscriptions.ID := "c1"; subscriptions.Metadata := Some 0%nat |} ]}
        false [subscriptions.ChanOpen].

(** The server after a handler returned without unlocking: ["c1"] is
    connected and the mutex is held. *)
Definition stuck : @World types :=
  world {[ "c1" := {| subscriptions.ID := "c1"; subscriptions.Metadata := None |} ]}
        true [].

(** One connection, ["c1"], without subscription. *)
Definition unsubscribed : @World types :=
  world {[ "c1" := {| subscriptions.ID := "c1"; subscriptions.Metadata := None |} ]}
        false [].

End Fixture.

(** ** Connection events *)

(** A notification of the transport, by the identity its context carries. *)
Inductive ConnEvent : Type :=
  | Begin (id : string)
  | End_ (id : string).

(** Removes one occurrence of [id]: one connection ends. *)
Fixpoint remove_one (id : string) (open : list string) : list string :=
  match open with
  | [] => []
  | x :: rest => if decide (x = id) then rest else x :: remove_one id rest
  end.

(** The identities of the connections open after [evs], starting from those
    in [open]: a begin opens a connection, an end closes one. *)
Fixpoint open_after (open : list string) (evs : list ConnEvent) : list string :=
  match evs with
  | [] => open
  | Begin id :: rest => open_after (id :: open) rest
  | End_ id :: rest => open_after (remove_one id open) rest
  end.

(** Every connection begins under an identity that no open connection has. *)
Fixpoint fresh_identities (open : list string) (evs : list ConnEvent) : bool :=
  match evs with
  | [] => true
  | Begin id :: rest =>
      bool_decide (id ∉ open) && fresh_identities (id :: open) rest
  | End_ id :: rest => fresh_identities (remove_one id open) rest
  end.

Section Notifications.

Context `{ST : storage.Types}.

(** The context the transport hands to the hook for a connection that
    [TagConn] tagged with [id]. *)
Definition conn_context (id : string) : context.Context :=
  context.WithValue context.Background clientID (context.any_string id).

Definition notify (ev : ConnEvent) : M unit :=
  match ev with
  | Begin id => HandleConn (conn_context id) stats.ConnBegin
  | End_ id => HandleConn (conn_context id) stats.ConnEnd
  end.

(** The hook called on each notification in turn. *)
Fixpoint notify_all (evs : list ConnEvent) : M unit :=
  match evs with
  | [] => ret tt
  | ev :: rest => notify ev;; notify_all rest
  end.

End Notifications.

(** ** Worlds reached by the handlers *)

Section Reached.

Context `{ST : storage.Types}.

(** The world in which the dispatch loop of a subscription starts: the
    fresh channel is in the heap and in the bundle, the mutex is free. *)
Definition installed (id : string) (w : World) : World :=
  {| module :=
       {| storage := storage (module w);
          subscribers :=
            alter (fun s => {| subscriptions.ID := subscriptions.ID s;
                               subscriptions.Metadata := Some (List.length (chans w)) |})
                  id (subscribers (module w));
          subsMx := false |};
     chans := chans w ++ [subscriptions.ChanOpen];
     log := log w;
     calls := calls w |}.

(** The world in which a connection-end leaves a server that knows [id]. *)
Definition disconnected (id : string) (subs : subscriptions.Subscriptions)
    (w : World) : World :=
  set_subscribers (delete id (subscribers (module w)))
    (set_chans (snd (subscriptions.Close subs (chans w))) w).

(** The world in which a connection-begin leaves a server that does not
    know [id]. *)
Definition connected (id : string) (w : World) : World :=
  set_subscribers
    (<[id := {| subscriptions.ID := id; subscriptions.Metadata := None |}]>
       (subscribers (module w))) w.

(** The registry holds an empty bundle under each identity of [open] and
    nothing else; each bundle carries its own key. *)
Definition tracks (w : World) (open : list string) : Prop :=
  (forall id, is_Some (subscribers (module w) !! id) <-> id ∈ open)
  /\ (forall id s, subscribers (module w) !! id = Some s ->
        s = {| subscriptions.ID := id; subscriptions.Metadata := None |}).

End Reached.

(** ** Calls in sequence *)

Section Operations.

Context `{ST : storage.Types} `{W : !Wire}.

(** A call that reaches the registry: a notification of the transport or a
    subscribe / unsubscribe request, each with the identity it carries. *)
Inductive Op : Type :=
  | OpBegin (id : string)
  | OpEnd (id : string)
  | OpSubscribe (id : string) (stream : list Select)
  | OpUnsubscribe (id : string).

(** The world a call leaves behind.  Every call runs on a goroutine of its
    own: whether it returned, panicked or stays parked, the next call finds
    the world as this one left it. *)
Definition after_op (op : Op) (w : World) : World :=
  match op with
  | OpBegin id => snd (HandleConn (conn_context id) stats.ConnBegin w)
  | OpEnd id => snd (HandleConn (conn_context id) stats.ConnEnd w)
  | OpSubscribe id stream => snd (SubscribeOnMetadata {| pb.Id := id |} stream w)
  | OpUnsubscribe id =>
      snd (UnsubscribeFromMetadata context.Background {| pb.Id := id |} w)
  end.

Definition after_ops (ops : list Op) (w : World) : World :=
  fold_left (fun w op => after_op op w) ops w.

(** Every bundle carries the key it is registered under. *)
Definition keyed (w : World) : Prop :=
  forall id s, subscribers (module w) !! id = Some s -> subscriptions.ID s = id.

(** Every channel a registered bundle refers to is open in the heap. *)
Definition live (w : World) : Prop :=
  forall id s ch,
    subscribers (module w) !! id = Some s ->
    subscriptions.Metadata s = Some ch ->
    chans w !! ch = Some subscriptions.ChanOpen.

(** No channel is referred to by the bundles of two identities. *)
Definition unshared (w : World) : Prop :=
  forall id1 id2 s1 s2 ch,
    subscribers (module w) !! id1 = Some s1 ->
    subscribers (module w) !! id2 = Some s2 ->
    subscriptions.Metadata s1 = Some ch ->
    subscriptions.Metadata s2 = Some ch ->
    id1 = id2.

(** *** What the dispatch loop does with a stream *)

(** The [select] outcomes on which the loop returns. *)
Definition is_stop (sel : Select) : bool :=
  match sel with
  | CtxDone => true
  | Recv _ (Some io_EOF) => true
  | _ => false
  end.

(** The outcomes met before the first one on which the loop returns. *)
Fixpoint before_stop (stream : list Select) : list Select :=
  match stream with
  | [] => []
  | sel :: rest => if is_stop sel then [] else sel :: before_stop rest
  end.

(** The log line of a failed send. *)
Definition send_failure (sel : Select) : option LogEntry :=
  match sel with
  | Recv _ (Some err) => Some {| log_err := err; log_msg := "sending message error" |}
  | _ => None
  end.

Definition add_logs (es : list LogEntry) (w : World) : World :=
  {| module := module w; chans := chans w; log := log w ++ es; calls := calls w |}.

End Operations.

(** Unfolds the monad's operations in the goal. *)
Ltac unfold_M :=
  unfold mbind, mret, M_bind, M_ret, bind, ret, panic, park, get, modify in *.

(** ** Properties *)

Section Mutex.

Context `{ST : storage.Types}.

Lemma Lock_free (w : World) :
  subsMx (module w) = false -> Lock w = (Returned tt, set_subsMx true w).
Proof. intros H. unfold Lock. now rewrite H. Qed.

Lemma Lock_held (w : World) :
  subsMx (module w) = true -> Lock w = (Parked OnMutex, w).
Proof. intros H. unfold Lock. now rewrite H. Qed.

Lemma Unlock_held (w : World) :
  subsMx (module w) = true -> Unlock w = (Returned tt, set_subsMx false w).
Proof. intros H. unfold Unlock. now rewrite H. Qed.

Lemma getSubscriber_unknown (w : World) (id : string) :
  subscribers (module w) !! id = None ->
  getSubscriber id w = (Returned (None, Some (errors_Errorf_unknown_subscriber id)), w).
Proof. intros H. unfold getSubscriber. unfold_M. now rewrite H. Qed.

Lemma getSubscriber_known (w : World) (id : string) (s : subscriptions.Subscriptions) :
  subscribers (module w) !! id = Some s ->
  getSubscriber id w = (Returned (Some s, None), w).
Proof. intros H. unfold getSubscriber. unfold_M. now rewrite H. Qed.

Lemma assert_string_tagged (ctx : context.Context) (id : string) (w : World) :
  context.Value ctx clientID = Some (context.any_string id) ->
  assert_string (context.Value ctx clientID) w = (Returned id, w).
Proof. intros H. now rewrite H. Qed.

Lemma Value_conn_context (id : string) :
  context.Value (conn_context id) clientID = Some (context.any_string id).
Proof. reflexivity. Qed.

End Mutex.

Section Hook.

Context `{ST : storage.Types}.

(** C10.  When the context handed to [HandleConn] carries no value under
    [clientID] (it was not tagged by [TagConn]), the type assertion
    [ctx.Value(clientID).(string)] panics: the call panics, for a
    connection begin, a connection end and any other stats value alike,
    and leaves the server as it was. *)
Theorem HandleConn_untagged_panics
    (ctx : context.Context) (s : stats.ConnStats) (w : World) :
  context.Value ctx clientID = None ->
  HandleConn ctx s w
  = (Panicked "interface conversion: interface {} is nil, not string", w).
Proof.
  intros H. unfold HandleConn. unfold_M. rewrite H. reflexivity.
Qed.

(** [TagConn] always tags: also when [randomString] fails, the context it
    returns carries a string under [clientID]. *)
Lemma TagConn_tags (random : string * option error) (ctx : context.Context) (w : World) :
  exists w', TagConn random ctx w
             = (Returned (context.WithValue ctx clientID
                            (context.any_string (fst random))), w')
             /\ module w' = module w.
Proof.
  unfold TagConn. unfold_M. destruct (snd random); simpl; eauto.
Qed.

(** [Hello] checks for nil before it asserts: without an identity it fails
    with an error and does not panic. *)
Lemma Hello_unknown_client (ctx : context.Context) (req : option pb.HelloRequest)
    (w : World) :
  context.Value ctx clientID = None ->
  Hello ctx req w = (Returned (None, Some (errors_New "unknown client")), w).
Proof. intros H. unfold Hello. now rewrite H. Qed.

End Hook.

Lemma HandleConn_untagged_panics_witness :
  context.Value context.Background clientID = None
  /\ HandleConn context.Background stats.ConnEnd Fixture.subscribed
     = (Panicked "interface conversion: interface {} is nil, not string",
        Fixture.subscribed).
Proof.
  split; [reflexivity |].
  apply (HandleConn_untagged_panics context.Background stats.ConnEnd Fixture.subscribed).
  reflexivity.
Defined.

Section Subscribe.

Context `{ST : storage.Types} `{W : !Wire}.

(** The dispatch loop writes to the log only. *)
Lemma dispatch_frame (ch : subscriptions.ChanRef) (stream : list Select) :
  forall (w : World),
    module (snd (dispatch ch stream w)) = module w
    /\ chans (snd (dispatch ch stream w)) = chans w
    /\ calls (snd (dispatch ch stream w)) = calls w.
Proof.
  induction stream as [| sel rest IH]; intros w; simpl.
  - auto.
  - destruct sel as [| msg [err |]]; simpl; auto.
    destruct err; simpl; auto.
    + unfold log_Err. unfold_M. simpl.
      destruct (IH (add_log {| log_err := errors_New msg0;
                               log_msg := "sending message error" |} w))
        as (H1 & H2 & H3).
      now rewrite H1, H2, H3.
    + unfold log_Err. unfold_M. simpl.
      destruct (IH (add_log {| log_err := foreign_error descr;
                               log_msg := "sending message error" |} w))
        as (H1 & H2 & H3).
      now rewrite H1, H2, H3.
Qed.

Lemma add_logs_nil (w : World) : add_logs [] w = w.
Proof. destruct w. unfold add_logs. simpl. now rewrite app_nil_r. Qed.

Lemma add_logs_cons (e : LogEntry) (es : list LogEntry) (w : World) :
  add_logs es (add_log e w) = add_logs (e :: es) w.
Proof. unfold add_logs, add_log. simpl. now rewrite <- app_assoc. Qed.

(** The outcome and the log of a run of the loop. *)
Lemma dispatch_run (ch : subscriptions.ChanRef) (stream : list Select) :
  forall (w : World),
    dispatch ch stream w
    = (if existsb is_stop stream then Returned None else Parked OnSelect,
       add_logs (omap send_failure (before_stop stream)) w).
Proof.
  induction stream as [| sel rest IH]; intros w; simpl.
  - now rewrite add_logs_nil.
  - destruct sel as [| msg [err |]]; simpl.
    + now rewrite add_logs_nil.
    + destruct err; simpl.
      * now rewrite add_logs_nil.
      * unfold log_Err. unfold_M. simpl. rewrite IH. now rewrite add_logs_cons.
      * unfold log_Err. unfold_M. simpl. rewrite IH. now rewrite add_logs_cons.
    + apply IH.
Qed.

(** The early return of [SubscribeOnMetadata]. *)
Lemma SubscribeOnMetadata_unknown
    (req : pb.DefaultRequest) (stream : list Select) (w : World) :
  subsMx (module w) = false ->
  subscribers (module w) !! pb.Id req = None ->
  SubscribeOnMetadata req stream w
  = (Returned (Some (errors_Errorf_unknown_subscriber (pb.Id req))),
     set_subsMx true w).
Proof.
  intros Hmx Hid. unfold SubscribeOnMetadata. unfold_M.
  rewrite (Lock_free w Hmx).
  rewrite (getSubscriber_unknown (set_subsMx true w) (pb.Id req) Hid).
  reflexivity.
Qed.

(** The early return of [UnsubscribeFromMetadata]. *)
Lemma UnsubscribeFromMetadata_unknown
    (ctx : context.Context) (req : pb.DefaultRequest) (w : World) :
  subsMx (module w) = false ->
  subscribers (module w) !! pb.Id req = None ->
  UnsubscribeFromMetadata ctx req w
  = (Returned (None, Some (errors_Errorf_unknown_subscriber (pb.Id req))),
     set_subsMx true w).
Proof.
  intros Hmx Hid. unfold UnsubscribeFromMetadata. unfold_M.
  rewrite (Lock_free w Hmx).
  rewrite (getSubscriber_unknown (set_subsMx true w) (pb.Id req) Hid).
  reflexivity.
Qed.

(** On a registered identity the install step runs under the mutex and
    the loop starts once it is released. *)
Lemma SubscribeOnMetadata_known
    (req : pb.DefaultRequest) (stream : list Select) (w : World)
    (subs : subscriptions.Subscriptions) :
  subsMx (module w) = false ->
  subscribers (module w) !! pb.Id req = Some subs ->
  SubscribeOnMetadata req stream w
  = dispatch (List.length (chans w)) stream (installed (pb.Id req) w).
Proof.
  intros Hmx Hid. unfold SubscribeOnMetadata. unfold_M.
  rewrite (Lock_free w Hmx).
  rewrite (getSubscriber_known (set_subsMx true w) (pb.Id req) subs Hid).
  reflexivity.
Qed.

Lemma UnsubscribeFromMetadata_known
    (ctx : context.Context) (req : pb.DefaultRequest) (w : World)
    (subs : subscriptions.Subscriptions) :
  subsMx (module w) = false ->
  subscribers (module w) !! pb.Id req = Some subs ->
  UnsubscribeFromMetadata ctx req w
  = (Returned (Some {| pb.Message_ := successMessage |}, None),
     set_subscribers
       (alter (fun s => {| subscriptions.ID := subscriptions.ID s;
                           subscriptions.Metadata := None |})
              (pb.Id req) (subscribers (module w))) w).
Proof.
  intros Hmx Hid. unfold UnsubscribeFromMetadata. unfold_M.
  rewrite (Lock_free w Hmx).
  rewrite (getSubscriber_known (set_subsMx true w) (pb.Id req) subs Hid).
  simpl. unfold set_subscribers, set_subsMx. simpl. now rewrite <- Hmx.
Qed.

End Subscribe.

Section SubscribeClaims.

Context `{ST : storage.Types} `{W : !Wire}.

(** C1 (fails on the code).  The claim: the subscription mutex is released
    on every path of [SubscribeOnMetadata] and [UnsubscribeFromMetadata],
    the path of an unregistered identity included.  The code: on that path
    both handlers return the error while [subsMx] is still held, and every
    later call that takes the mutex parks on it. *)
Theorem subsMx_held_after_unknown_subscriber
    (ctx : context.Context) (req : pb.DefaultRequest) (stream : list Select)
    (w : World) :
  subsMx (module w) = false ->
  subscribers (module w) !! pb.Id req = None ->
  let err := errors_Errorf_unknown_subscriber (pb.Id req) in
  let after_sub := snd (SubscribeOnMetadata req stream w) in
  let after_unsub := snd (UnsubscribeFromMetadata ctx req w) in
  fst (SubscribeOnMetadata req stream w) = Returned (Some err)
  /\ subsMx (module after_sub) = true
  /\ fst (UnsubscribeFromMetadata ctx req w) = Returned (None, Some err)
  /\ subsMx (module after_unsub) = true
  /\ (forall req' stream',
        SubscribeOnMetadata req' stream' after_sub = (Parked OnMutex, after_sub))
  /\ (forall ctx' req',
        UnsubscribeFromMetadata ctx' req' after_unsub = (Parked OnMutex, after_unsub)).
Proof.
  intros Hmx Hid. cbv zeta.
  rewrite (SubscribeOnMetadata_unknown req stream w Hmx Hid).
  rewrite (UnsubscribeFromMetadata_unknown ctx req w Hmx Hid).
  simpl. split_and!; [reflexivity .. | |].
  - intros req' stream'. unfold SubscribeOnMetadata. unfold_M.
    now rewrite Lock_held.
  - intros ctx' req'. unfold UnsubscribeFromMetadata. unfold_M.
    now rewrite Lock_held.
Qed.

(** C6.  A [SubscribeOnMetadata] call whose request [Id] is not in the
    registry returns the error "unknown subscriber: <Id>"; the registry
    and the heap of channels are as before the call: no channel was
    created and none was installed into a bundle. *)
Theorem SubscribeOnMetadata_unknown_subscriber
    (req : pb.DefaultRequest) (stream : list Select) (w : World) :
  subsMx (module w) = false ->
  subscribers (module w) !! pb.Id req = None ->
  fst (SubscribeOnMetadata req stream w)
  = Returned (Some (errors_New ("unknown subscriber: " +:+ pb.Id req)))
  /\ subscribers (module (snd (SubscribeOnMetadata req stream w)))
     = subscribers (module w)
  /\ chans (snd (SubscribeOnMetadata req stream w)) = chans w.
Proof.
  intros Hmx Hid.
  rewrite (SubscribeOnMetadata_unknown req stream w Hmx Hid).
  now simpl.
Qed.

(** C7.  [UnsubscribeFromMetadata] on a registered connection that holds
    no metadata channel writes nil over the nil reference and returns the
    acknowledgment [Message{"success"}] with a nil error; the world is
    left exactly as it was. *)
Theorem UnsubscribeFromMetadata_without_subscription
    (ctx : context.Context) (req : pb.DefaultRequest) (w : World)
    (subs : subscriptions.Subscriptions) :
  subsMx (module w) = false ->
  subscribers (module w) !! pb.Id req = Some subs ->
  subscriptions.Metadata subs = None ->
  UnsubscribeFromMetadata ctx req w
  = (Returned (Some {| pb.Message_ := "success" |}, None), w).
Proof.
  intros Hmx Hid Hnone.
  rewrite (UnsubscribeFromMetadata_known ctx req w subs Hmx Hid).
  f_equal. rewrite alter_id.
  - now destruct w as [[? ? ?] ? ? ?].
  - intros s Hs. rewrite Hid in Hs. injection Hs as <-.
    destruct subs as [i m]. simpl in Hnone. now subst m.
Qed.

(** C2 (amended).  A [SubscribeOnMetadata] call on a connection whose
    bundle already holds a live metadata channel creates a fresh channel
    and writes it over the reference in the bundle; the channel installed
    before is not closed: it stays open in the heap, as does every other
    channel, and the bundle no longer refers to it. *)
Theorem SubscribeOnMetadata_replaces_without_closing
    (req : pb.DefaultRequest) (stream : list Select) (w : World)
    (subs : subscriptions.Subscriptions) (old : subscriptions.ChanRef) :
  subsMx (module w) = false ->
  subscribers (module w) !! pb.Id req = Some subs ->
  subscriptions.Metadata subs = Some old ->
  chans w !! old = Some subscriptions.ChanOpen ->
  let w' := snd (SubscribeOnMetadata req stream w) in
  let fresh := List.length (chans w) in
  subscribers (module w') !! pb.Id req
  = Some {| subscriptions.ID := subscriptions.ID subs;
            subscriptions.Metadata := Some fresh |}
  /\ fresh <> old
  /\ chans w' !! fresh = Some subscriptions.ChanOpen
  /\ chans w' !! old = Some subscriptions.ChanOpen
  /\ (forall ch st, chans w !! ch = Some st -> chans w' !! ch = Some st).
Proof.
  intros Hmx Hid Hold Hopen. cbv zeta.
  rewrite (SubscribeOnMetadata_known req stream w subs Hmx Hid).
  destruct (dispatch_frame (List.length (chans w)) stream (installed (pb.Id req) w))
    as (Hm & Hc & _).
  rewrite Hm, Hc. simpl.
  assert (Hlt : (old < List.length (chans w))%nat)
    by (apply lookup_lt_Some with (x := subscriptions.ChanOpen); exact Hopen).
  split_and!.
  - rewrite lookup_alter_eq, Hid. reflexivity.
  - lia.
  - rewrite lookup_app_r by lia. now rewrite Nat.sub_diag.
  - now rewrite lookup_app_l.
  - intros ch st Hch. rewrite lookup_app_l; [exact Hch |].
    apply lookup_lt_Some with (x := st). exact Hch.
Qed.

(** C5.  One pass of the dispatch loop: when the [select] finds the
    stream's context done, the call returns nil; when [stream.Send] fails
    with [io.EOF], the call returns nil; when it fails with any other
    error, the error is logged and the loop goes on with what comes next,
    exactly as it would have without the failure but for the log line.
    With nothing pending the loop does not return: the goroutine stays in
    the [select], also right after a failed send.  Over a whole stream the
    loop returns nil if the stream holds a done context or a send failing
    with [io.EOF] and stays in the [select] otherwise: no other send
    failure ends it, and it never returns an error and never panics. *)
Theorem dispatch_loop_iteration
    (ch : subscriptions.ChanRef) (msg : option pb_Metadata) (rest : list Select)
    (w : World) :
  dispatch ch (CtxDone :: rest) w = (Returned None, w)
  /\ dispatch ch (Recv msg (Some io_EOF) :: rest) w = (Returned None, w)
  /\ (forall err, err <> io_EOF ->
        dispatch ch (Recv msg (Some err) :: rest) w
        = dispatch ch rest
            (add_log {| log_err := err; log_msg := "sending message error" |} w))
  /\ dispatch ch (Recv msg None :: rest) w = dispatch ch rest w
  /\ (forall stream e, fst (dispatch ch stream w) <> Returned (Some e))
  /\ dispatch ch [] w = (Parked OnSelect, w)
  /\ (forall err, err <> io_EOF ->
        dispatch ch [Recv msg (Some err)] w
        = (Parked OnSelect,
           add_log {| log_err := err; log_msg := "sending message error" |} w))
  /\ (forall stream,
        fst (dispatch ch stream w)
        = if existsb is_stop stream then Returned None else Parked OnSelect).
Proof.
  split_and!; try reflexivity.
  - intros err Hne. destruct err; [congruence | reflexivity | reflexivity].
  - intros stream e. rewrite dispatch_run. simpl.
    destruct (existsb is_stop stream); discriminate.
  - intros err Hne. destruct err; [congruence | reflexivity | reflexivity].
  - intros stream. now rewrite dispatch_run.
Qed.

End SubscribeClaims.

Section Registry.

Context `{ST : storage.Types}.

Lemma HandleConn_ConnEnd_eval (ctx : context.Context) (id : string) (w : World) :
  context.Value ctx clientID = Some (context.any_string id) ->
  subsMx (module w) = false ->
  HandleConn ctx stats.ConnEnd w
  = (Returned tt,
     match subscribers (module w) !! id with
     | Some subs => disconnected id subs w
     | None => w
     end).
Proof.
  intros Hctx Hmx. unfold HandleConn. unfold_M.
  rewrite (assert_string_tagged ctx id w Hctx).
  rewrite (Lock_free w Hmx). simpl.
  destruct (subscribers (module w) !! id) as [subs |] eqn:Hid.
  - destruct w as [[st sub mx] c l ca]. simpl in *. subst mx.
    destruct subs as [i [ch |]]; reflexivity.
  - destruct w as [[st sub mx] c l ca]. simpl in *. now subst mx.
Qed.

Lemma HandleConn_ConnBegin_eval (ctx : context.Context) (id : string) (w : World) :
  context.Value ctx clientID = Some (context.any_string id) ->
  subsMx (module w) = false ->
  HandleConn ctx stats.ConnBegin w
  = (Returned tt,
     match subscribers (module w) !! id with
     | Some _ => w
     | None => connected id w
     end).
Proof.
  intros Hctx Hmx. unfold HandleConn. unfold_M.
  rewrite (assert_string_tagged ctx id w Hctx).
  rewrite (Lock_free w Hmx). simpl.
  destruct (subscribers (module w) !! id) as [subs |] eqn:Hid.
  - destruct w as [[st sub mx] c l ca]. simpl in *. now subst mx.
  - unfold connected. destruct w as [[st sub mx] c l ca]. simpl in *. now subst mx.
Qed.

(** C4.  A connection-end for an identity of the registry closes the
    bundle registered under it (every channel the bundle holds is closed
    in the heap afterwards) and removes the entry; a connection-end for an
    identity the registry does not know returns normally and leaves the
    world as it was.  In both cases a second connection-end for the same
    identity changes nothing more. *)
Theorem HandleConn_ConnEnd_closes_and_removes
    (ctx : context.Context) (id : string) (w : World) :
  context.Value ctx clientID = Some (context.any_string id) ->
  subsMx (module w) = false ->
  let w' := snd (HandleConn ctx stats.ConnEnd w) in
  fst (HandleConn ctx stats.ConnEnd w) = Returned tt
  /\ (forall subs,
        subscribers (module w) !! id = Some subs ->
        chans w' = snd (subscriptions.Close subs (chans w))
        /\ (forall ch st,
              subscriptions.Metadata subs = Some ch ->
              chans w !! ch = Some st ->
              chans w' !! ch = Some subscriptions.ChanClosed)
        /\ subscribers (module w') = delete id (subscribers (module w))
        /\ subscribers (module w') !! id = None)
  /\ (subscribers (module w) !! id = None -> w' = w)
  /\ HandleConn ctx stats.ConnEnd w' = (Returned tt, w').
Proof.
  intros Hctx Hmx. cbv zeta.
  rewrite (HandleConn_ConnEnd_eval ctx id w Hctx Hmx). simpl.
  split_and!.
  - reflexivity.
  - intros subs Hid. rewrite Hid. simpl. split_and!.
    + reflexivity.
    + intros ch st Hch Hlive. unfold subscriptions.Close. rewrite Hch. simpl.
      unfold subscriptions.close_chan. apply list_lookup_insert_eq.
      apply lookup_lt_Some with (x := st). exact Hlive.
    + reflexivity.
    + apply lookup_delete_eq.
  - intros Hid. now rewrite Hid.
  - destruct (subscribers (module w) !! id) as [subs |] eqn:Hid.
    + rewrite (HandleConn_ConnEnd_eval ctx id (disconnected id subs w) Hctx)
        by (simpl; exact Hmx).
      simpl. now rewrite lookup_delete_eq.
    + rewrite (HandleConn_ConnEnd_eval ctx id w Hctx Hmx). now rewrite Hid.
Qed.

End Registry.

(** *** Open connections *)

Lemma remove_one_absent (id : string) (open : list string) :
  id ∉ open -> remove_one id open = open.
Proof.
  induction open as [| x rest IH]; simpl; intros Hnot; [reflexivity |].
  rewrite not_elem_of_cons in Hnot. destruct Hnot as [Hne Hrest].
  destruct (decide (x = id)) as [-> | _]; [congruence |].
  now rewrite IH.
Qed.

Lemma elem_of_remove_one (id x : string) (open : list string) :
  NoDup open -> x ∈ remove_one id open <-> x ∈ open /\ x <> id.
Proof.
  induction open as [| y rest IH]; simpl; intros Hnd.
  - split; [intros H; inversion H | intros [H _]; inversion H].
  - apply NoDup_cons in Hnd as [Hy Hrest].
    destruct (decide (y = id)) as [-> | Hne].
    + rewrite elem_of_cons. split.
      * intros Hx. split; [now right |]. intros ->. contradiction.
      * intros [[-> | Hx] Hxid]; [congruence | exact Hx].
    + rewrite !elem_of_cons, (IH Hrest). split.
      * intros [-> | [Hx Hxid]]; [split; [now left | exact Hne] | split; [now right | exact Hxid]].
      * intros [[-> | Hx] Hxid]; [now left | right; now split].
Qed.

Lemma NoDup_remove_one (id : string) (open : list string) :
  NoDup open -> NoDup (remove_one id open).
Proof.
  induction open as [| y rest IH]; simpl; intros Hnd; [constructor |].
  pose proof Hnd as Hnd'. apply NoDup_cons in Hnd' as [Hy Hrest].
  destruct (decide (y = id)) as [-> | Hne]; [exact Hrest |].
  apply NoDup_cons. split; [| now apply IH].
  rewrite (elem_of_remove_one id y rest Hrest). tauto.
Qed.

Section Lifecycle.

Context `{ST : storage.Types}.

Lemma tracks_connected (id : string) (w : World) (open : list string) :
  tracks w open -> tracks (connected id w) (id :: open).
Proof.
  intros [Hdom Hval]. split; simpl.
  - intros id'. rewrite elem_of_cons, <- Hdom.
    destruct (decide (id = id')) as [-> | Hne].
    + rewrite lookup_insert_eq. split; [now left | eauto].
    + rewrite lookup_insert_ne by exact Hne. split; [now right |].
      intros [-> | H]; [congruence | exact H].
  - intros id' s. destruct (decide (id = id')) as [-> | Hne].
    + rewrite lookup_insert_eq. now intros [= <-].
    + rewrite lookup_insert_ne by exact Hne. apply Hval.
Qed.

Lemma tracks_disconnected (id : string) (subs : subscriptions.Subscriptions)
    (w : World) (open : list string) :
  NoDup open -> tracks w open ->
  tracks (disconnected id subs w) (remove_one id open).
Proof.
  intros Hnd [Hdom Hval]. split; simpl.
  - intros id'. rewrite (elem_of_remove_one id id' open Hnd), <- Hdom.
    destruct (decide (id = id')) as [-> | Hne].
    + rewrite lookup_delete_eq. split; [intros [? H]; discriminate | tauto].
    + rewrite lookup_delete_ne by exact Hne. split; [split; [tauto | congruence] | tauto].
  - intros id' s. destruct (decide (id = id')) as [-> | Hne].
    + rewrite lookup_delete_eq. discriminate.
    + rewrite lookup_delete_ne by exact Hne. apply Hval.
Qed.

(** A run continues where its first part stopped. *)
Lemma notify_all_app (evs more : list ConnEvent) :
  forall (w w' : World),
    notify_all evs w = (Returned tt, w') ->
    notify_all (evs ++ more) w = notify_all more w'.
Proof.
  induction evs as [| ev rest IH]; intros w w' Hrun; simpl in *.
  - unfold_M. now injection Hrun as <-.
  - unfold_M. destruct (notify ev w) as [[[] | msg | on] w1]; try discriminate.
    now apply IH.
Qed.

(** The invariant of the hook over a run of notifications. *)
Lemma notify_all_tracks (evs : list ConnEvent) :
  forall (open : list string) (w : World),
    fresh_identities open evs = true ->
    NoDup open ->
    subsMx (module w) = false ->
    tracks w open ->
    exists w',
      notify_all evs w = (Returned tt, w')
      /\ subsMx (module w') = false
      /\ tracks w' (open_after open evs)
      /\ NoDup (open_after open evs).
Proof.
  induction evs as [| ev rest IH]; intros open w Hfresh Hnd Hmx Htr.
  - exists w. simpl. auto.
  - destruct ev as [id | id]; simpl in Hfresh |- *; unfold_M.
    + apply andb_prop in Hfresh as [Hnew Hfresh].
      apply bool_decide_eq_true in Hnew.
      rewrite (HandleConn_ConnBegin_eval (conn_context id) id w
                 (Value_conn_context id) Hmx).
      assert (Hnone : subscribers (module w) !! id = None).
      { destruct (subscribers (module w) !! id) eqn:E; [| reflexivity].
        exfalso. apply Hnew, (proj1 Htr). eauto. }
      rewrite Hnone.
      apply (IH (id :: open) (connected id w) Hfresh).
      * apply NoDup_cons. now split.
      * simpl. exact Hmx.
      * now apply tracks_connected.
    + rewrite (HandleConn_ConnEnd_eval (conn_context id) id w
                 (Value_conn_context id) Hmx).
      destruct (subscribers (module w) !! id) as [subs |] eqn:E.
      * apply (IH (remove_one id open) (disconnected id subs w) Hfresh).
        -- now apply NoDup_remove_one.
        -- simpl. exact Hmx.
        -- now apply tracks_disconnected.
      * assert (Hnot : id ∉ open).
        { intros Hin. apply (proj1 Htr) in Hin. rewrite E in Hin.
          destruct Hin as [? Hin]. discriminate. }
        rewrite (remove_one_absent id open Hnot) in Hfresh |- *.
        now apply (IH open w Hfresh).
Qed.

(** C3 (amended).  Starting from an empty registry, after any finite run
    of connection-begin and connection-end notifications in which every
    connection begins under an identity that no open connection carries,
    the hook has returned from every notification and the registry holds
    exactly the identities of the connections still open: an identity is a
    key of [subscribers] if and only if its connection is open, there are
    as many entries as open connections, no two entries carry the same
    [ID], and the bundle under each key is the empty bundle created at
    connection-begin, carrying that key as its [ID].  One more
    connection-begin under a fresh identity inserts the empty bundle under
    it, and one more connection-end deletes the entry of its identity. *)
Theorem subscribers_are_the_open_connections (evs : list ConnEvent) (w : World) :
  fresh_identities [] evs = true ->
  subsMx (module w) = false ->
  subscribers (module w) = ∅ ->
  exists w',
    notify_all evs w = (Returned tt, w')
    /\ (forall id, id ∈ dom (subscribers (module w')) <-> id ∈ open_after [] evs)
    /\ NoDup (open_after [] evs)
    /\ size (subscribers (module w')) = List.length (open_after [] evs)
    /\ (forall id s, subscribers (module w') !! id = Some s ->
          s = {| subscriptions.ID := id; subscriptions.Metadata := None |})
    /\ (forall id1 id2 s1 s2,
          subscribers (module w') !! id1 = Some s1 ->
          subscribers (module w') !! id2 = Some s2 ->
          subscriptions.ID s1 = subscriptions.ID s2 -> id1 = id2)
    /\ (forall id, id ∉ open_after [] evs ->
          exists w'', notify_all (evs ++ [Begin id]) w = (Returned tt, w'')
                      /\ subscribers (module w'')
                         = <[id := {| subscriptions.ID := id;
                                      subscriptions.Metadata := None |}]>
                             (subscribers (module w')))
    /\ (forall id,
          exists w'', notify_all (evs ++ [End_ id]) w = (Returned tt, w'')
                      /\ subscribers (module w'')
                         = delete id (subscribers (module w'))).
Proof.
  intros Hfresh Hmx Hempty.
  destruct (notify_all_tracks evs [] w Hfresh (NoDup_nil_2 (A := string)) Hmx)
    as (w' & Hrun & Hmx' & [Hdom Hval] & Hnd).
  { split.
    - intros id. rewrite Hempty, lookup_empty. split.
      + intros [? H]; discriminate.
      + intros H; inversion H.
    - intros id s. rewrite Hempty, lookup_empty. discriminate. }
  exists w'. split_and!; try assumption.
  - intros id. rewrite elem_of_dom. apply Hdom.
  - rewrite <- size_dom.
    rewrite <- (size_list_to_set (C := gset string) (open_after [] evs) Hnd).
    f_equal. apply set_eq. intros id.
    rewrite elem_of_dom, elem_of_list_to_set. apply Hdom.
  - intros id1 id2 s1 s2 H1 H2 Heq.
    rewrite (Hval id1 s1 H1), (Hval id2 s2 H2) in Heq. exact Heq.
  - intros id Hnew. rewrite (notify_all_app evs [Begin id] w w' Hrun).
    simpl. unfold_M.
    rewrite (HandleConn_ConnBegin_eval (conn_context id) id w'
               (Value_conn_context id) Hmx').
    destruct (subscribers (module w') !! id) eqn:E.
    + exfalso. apply Hnew, Hdom. eauto.
    + eexists. split; reflexivity.
  - intros id. rewrite (notify_all_app evs [End_ id] w w' Hrun).
    simpl. unfold_M.
    rewrite (HandleConn_ConnEnd_eval (conn_context id) id w'
               (Value_conn_context id) Hmx').
    destruct (subscribers (module w') !! id) eqn:E.
    + eexists. split; reflexivity.
    + eexists. split; [reflexivity |]. symmetry. now apply delete_id.
Qed.

End Lifecycle.

Section Queries.

Context `{ST : storage.Types} `{W : !Wire}.

Lemma newPage_present (pg : pb.Page) :
  limit (newPage (Some pg)) = pb.Limit pg
  /\ offset (newPage (Some pg)) = pb.Offset pg
  /\ (pb.Order pg <> pb.SortOrder_DESC ->
      order (newPage (Some pg)) = storage.SortOrderAsc)
  /\ (pb.Order pg = pb.SortOrder_DESC ->
      order (newPage (Some pg)) = storage.SortOrderDesc).
Proof.
  simpl. split_and!; try reflexivity.
  - intros Hne. destruct (pb.Order pg); congruence.
  - now intros ->.
Qed.

(** C8.  [GetMetadata] on a request makes one storage call,
    [GetByAddress], under the context [context.WithTimeout(ctx, 10s)]: its
    deadline is at most ten seconds away (and never later than the
    caller's), and it carries the caller's values.  When that call
    answers with an error, [GetMetadata] returns nil and that very
    error. *)
Theorem GetMetadata_timeout_and_error
    (ctx : context.Context) (req : pb.GetMetadataRequest) (w : World) :
  let reqCtx := context.WithTimeout ctx 10000000000 in
  let answer := storage.GetByAddress (storage.Metadata_ (storage (module w)))
                  reqCtx (pb.Address req) in
  calls (snd (GetMetadata ctx (Some req) w))
  = calls w ++ [storage.CallGetByAddress reqCtx (pb.Address req)]
  /\ (exists d, context.timeout reqCtx = Some d
                /\ d <= 10 * 1000000000
                /\ (forall p, context.timeout ctx = Some p -> d <= p))
  /\ context.values reqCtx = context.values ctx
  /\ (forall err, snd answer = Some err ->
        fst (GetMetadata ctx (Some req) w) = Returned (None, Some err))
  /\ (snd answer = None ->
        fst (GetMetadata ctx (Some req) w) = Returned (Metadata (fst answer), None)).
Proof.
  cbv zeta. unfold GetMetadata, call_GetByAddress. unfold_M.
  change (time.Second * 10) with 10000000000.
  set (reqCtx := context.WithTimeout ctx 10000000000).
  set (answer := storage.GetByAddress _ reqCtx (pb.Address req)).
  split_and!.
  - destruct (snd answer); reflexivity.
  - subst reqCtx. simpl. destruct (context.timeout ctx) as [p |].
    + exists (Z.min p 10000000000). split_and!; [reflexivity | lia |].
      intros p' [= <-]. lia.
    + exists 10000000000. split_and!; [reflexivity | lia | discriminate].
  - reflexivity.
  - intros err Herr. now rewrite Herr.
  - intros Hnil. now rewrite Hnil.
Qed.

(** C9 (amended).  A listing handler derives its page from the request's
    [Page] with one call of [newPage] and makes one storage call with it: the
    limit and the offset of the payload are passed as they are, and the
    order passed is ascending whenever the payload's order is not DESC
    (ASC, or a number that names no order) and descending when it is
    DESC.  Without a [Page] payload the page is [new(page)] in each of the
    three handlers: limit 0, offset 0 and the zero value of
    [storage.SortOrder], whatever that value is. *)
Theorem listing_page_from_request (ctx : context.Context) (w : World) (pg : pb.Page) :
  let p := newPage (Some pg) in
  (limit p = pb.Limit pg /\ offset p = pb.Offset pg)
  /\ (pb.Order pg <> pb.SortOrder_DESC -> order p = storage.SortOrderAsc)
  /\ (pb.Order pg = pb.SortOrder_DESC -> order p = storage.SortOrderDesc)
  /\ (forall req,
        pb.ListMetadataRequest_GetPage req = Some pg ->
        calls (snd (ListMetadata ctx req w))
        = calls w ++ [storage.CallList ctx (pb.Limit pg) (pb.Offset pg) (order p)])
  /\ (forall r,
        pb.BySignature_Page r = Some pg ->
        calls (snd (GetMetadataByMethodSinature ctx (Some r) w))
        = calls w ++ [storage.CallGetByMethodSinature ctx (pb.Signature r)
                        (pb.Limit pg) (pb.Offset pg) (order p)])
  /\ (forall r,
        pb.ByTopic_Page r = Some pg ->
        calls (snd (GetMetadataByTopic ctx (Some r) w))
        = calls w ++ [storage.CallGetByTopic ctx (pb.Topic r)
                        (pb.Limit pg) (pb.Offset pg) (order p)])
  /\ (forall req,
        pb.ListMetadataRequest_GetPage req = None ->
        calls (snd (ListMetadata ctx req w))
        = calls w ++ [storage.CallList ctx 0 0 storage.SortOrder_zero])
  /\ (forall r,
        pb.BySignature_Page r = None ->
        calls (snd (GetMetadataByMethodSinature ctx (Some r) w))
        = calls w ++ [storage.CallGetByMethodSinature ctx (pb.Signature r)
                        0 0 storage.SortOrder_zero])
  /\ (forall r,
        pb.ByTopic_Page r = None ->
        calls (snd (GetMetadataByTopic ctx (Some r) w))
        = calls w ++ [storage.CallGetByTopic ctx (pb.Topic r)
                        0 0 storage.SortOrder_zero]).
Proof.
  cbv zeta. destruct (newPage_present pg) as (Hl & Ho & Hasc & Hdesc).
  split_and!; try assumption.
  - intros req Hreq. unfold ListMetadata, call_List. unfold_M.
    rewrite Hreq, Hl, Ho.
    destruct (storage.List _ _ _ _ _) as [l [e |]]; reflexivity.
  - intros r Hreq. unfold GetMetadataByMethodSinature, call_GetByMethodSinature.
    unfold_M. unfold pb.BySignature_GetPage. rewrite Hreq, Hl, Ho.
    destruct (storage.GetByMethodSinature _ _ _ _ _ _) as [l [e |]]; reflexivity.
  - intros r Hreq. unfold GetMetadataByTopic, call_GetByTopic.
    unfold_M. unfold pb.ByTopic_GetPage. rewrite Hreq, Hl, Ho.
    destruct (storage.GetByTopic _ _ _ _ _ _) as [l [e |]]; reflexivity.
  - intros req Hreq. unfold ListMetadata, call_List. unfold_M.
    rewrite Hreq. simpl.
    destruct (storage.List _ _ _ _ _) as [l [e |]]; reflexivity.
  - intros r Hreq. unfold GetMetadataByMethodSinature, call_GetByMethodSinature.
    unfold_M. unfold pb.BySignature_GetPage. rewrite Hreq. simpl.
    destruct (storage.GetByMethodSinature _ _ _ _ _ _) as [l [e |]]; reflexivity.
  - intros r Hreq. unfold GetMetadataByTopic, call_GetByTopic.
    unfold_M. unfold pb.ByTopic_GetPage. rewrite Hreq. simpl.
    destruct (storage.GetByTopic _ _ _ _ _ _) as [l [e |]]; reflexivity.
Qed.

End Queries.

(** ** The theorems at concrete inputs *)

Lemma subsMx_held_after_unknown_subscriber_witness :
  subsMx (module Fixture.idle) = false
  /\ subscribers (module Fixture.idle) !! "ghost" = None
  /\ fst (SubscribeOnMetadata (W := Fixture.wire) {| pb.Id := "ghost" |} [CtxDone] Fixture.idle)
     = Returned (Some (errors_New "unknown subscriber: ghost"))
  /\ subsMx (module (snd (SubscribeOnMetadata (W := Fixture.wire)
                            {| pb.Id := "ghost" |} [CtxDone] Fixture.idle))) = true.
Proof.
  pose proof (subsMx_held_after_unknown_subscriber (W := Fixture.wire)
                context.Background {| pb.Id := "ghost" |} [CtxDone] Fixture.idle
                eq_refl eq_refl) as H.
  cbv zeta in H. destruct H as (H1 & H2 & _).
  split; [reflexivity |]. split; [reflexivity |]. split; [exact H1 | exact H2].
Defined.

Lemma SubscribeOnMetadata_unknown_subscriber_witness :
  subsMx (module Fixture.unsubscribed) = false
  /\ subscribers (module Fixture.unsubscribed) !! "c2" = None
  /\ fst (SubscribeOnMetadata (W := Fixture.wire) {| pb.Id := "c2" |} [] Fixture.unsubscribed)
     = Returned (Some (errors_New "unknown subscriber: c2"))
  /\ chans (snd (SubscribeOnMetadata (W := Fixture.wire) {| pb.Id := "c2" |} []
                   Fixture.unsubscribed)) = [].
Proof.
  pose proof (SubscribeOnMetadata_unknown_subscriber (W := Fixture.wire)
                {| pb.Id := "c2" |} [] Fixture.unsubscribed eq_refl eq_refl)
    as (H1 & _ & H3).
  split; [reflexivity |]. split; [reflexivity |]. split; [exact H1 | exact H3].
Defined.

Lemma UnsubscribeFromMetadata_without_subscription_witness :
  subsMx (module Fixture.unsubscribed) = false
  /\ subscribers (module Fixture.unsubscribed) !! "c1"
     = Some {| subscriptions.ID := "c1"; subscriptions.Metadata := None |}
  /\ UnsubscribeFromMetadata context.Background {| pb.Id := "c1" |} Fixture.unsubscribed
     = (Returned (Some {| pb.Message_ := "success" |}, None), Fixture.unsubscribed).
Proof.
  split; [reflexivity |]. split; [reflexivity |].
  apply (UnsubscribeFromMetadata_without_subscription context.Background
           {| pb.Id := "c1" |} Fixture.unsubscribed
           {| subscriptions.ID := "c1"; subscriptions.Metadata := None |});
    reflexivity.
Defined.

Lemma SubscribeOnMetadata_replaces_without_closing_witness :
  subsMx (module Fixture.subscribed) = false
  /\ subscribers (module Fixture.subscribed) !! "c1"
     = Some {| subscriptions.ID := "c1"; subscriptions.Metadata := Some 0%nat |}
  /\ chans Fixture.subscribed !! 0%nat = Some subscriptions.ChanOpen
  /\ subscribers (module (snd (SubscribeOnMetadata (W := Fixture.wire)
                                 {| pb.Id := "c1" |} [CtxDone] Fixture.subscribed))) !! "c1"
     = Some {| subscriptions.ID := "c1"; subscriptions.Metadata := Some 1%nat |}
  /\ chans (snd (SubscribeOnMetadata (W := Fixture.wire)
                   {| pb.Id := "c1" |} [CtxDone] Fixture.subscribed)) !! 0%nat
     = Some subscriptions.ChanOpen.
Proof.
  pose proof (SubscribeOnMetadata_replaces_without_closing (W := Fixture.wire)
                {| pb.Id := "c1" |} [CtxDone] Fixture.subscribed
                {| subscriptions.ID := "c1"; subscriptions.Metadata := Some 0%nat |}
                0%nat eq_refl eq_refl eq_refl eq_refl) as H.
  cbv zeta in H. destruct H as (H1 & _ & _ & H4 & _).
  split; [reflexivity |]. split; [reflexivity |]. split; [reflexivity |].
  split; [exact H1 | exact H4].
Defined.

(** C2 (as stated, refuted).  The connection ["c1"] holds the live channel 0;
    a second [SubscribeOnMetadata] on it installs channel 1, and channel 0 is
    not closed, neither before the install nor after. *)
Lemma second_subscribe_does_not_close_first_channel :
  let w := Fixture.subscribed in
  let w' := snd (SubscribeOnMetadata (W := Fixture.wire)
                   {| pb.Id := "c1" |} [CtxDone] w) in
  subscribers (module w) !! "c1"
  = Some {| subscriptions.ID := "c1"; subscriptions.Metadata := Some 0%nat |}
  /\ chans w !! 0%nat = Some subscriptions.ChanOpen
  /\ subscribers (module w') !! "c1"
     = Some {| subscriptions.ID := "c1"; subscriptions.Metadata := Some 1%nat |}
  /\ chans w' !! 0%nat <> Some subscriptions.ChanClosed.
Proof.
  cbv zeta. split_and!; [reflexivity | reflexivity | vm_compute; reflexivity |].
  vm_compute. discriminate.
Qed.

Lemma HandleConn_ConnEnd_closes_and_removes_witness :
  context.Value (Fixture.tagged "c1") clientID = Some (context.any_string "c1")
  /\ subsMx (module Fixture.subscribed) = false
  /\ fst (HandleConn (Fixture.tagged "c1") stats.ConnEnd Fixture.subscribed) = Returned tt
  /\ chans (snd (HandleConn (Fixture.tagged "c1") stats.ConnEnd Fixture.subscribed)) !! 0%nat
     = Some subscriptions.ChanClosed
  /\ subscribers (module (snd (HandleConn (Fixture.tagged "c1") stats.ConnEnd
                                 Fixture.subscribed))) !! "c1" = None.
Proof.
  pose proof (HandleConn_ConnEnd_closes_and_removes (Fixture.tagged "c1") "c1"
                Fixture.subscribed eq_refl eq_refl) as H.
  cbv zeta in H. destruct H as (H1 & H2 & _).
  destruct (H2 {| subscriptions.ID := "c1"; subscriptions.Metadata := Some 0%nat |}
               eq_refl) as (_ & Hclosed & _ & Hgone).
  split; [reflexivity |]. split; [reflexivity |]. split; [exact H1 |].
  split; [exact (Hclosed 0%nat subscriptions.ChanOpen eq_refl eq_refl) | exact Hgone].
Defined.

Lemma subscribers_are_the_open_connections_witness :
  fresh_identities [] [Begin "a"; Begin "b"; End_ "a"; Begin "c"; End_ "c"] = true
  /\ open_after [] [Begin "a"; Begin "b"; End_ "a"; Begin "c"; End_ "c"] = ["b"]
  /\ exists w',
       notify_all [Begin "a"; Begin "b"; End_ "a"; Begin "c"; End_ "c"] Fixture.idle
       = (Returned tt, w')
       /\ forall id, id ∈ dom (subscribers (module w')) <-> id ∈ ["b"].
Proof.
  split; [reflexivity |]. split; [reflexivity |].
  destruct (subscribers_are_the_open_connections
              [Begin "a"; Begin "b"; End_ "a"; Begin "c"; End_ "c"] Fixture.idle
              eq_refl eq_refl eq_refl) as (w' & Hrun & Hdom & _).
  exists w'. split; [exact Hrun | exact Hdom].
Defined.

(** ** Further properties of the hook *)

Section HookProperties.

Context `{ST : storage.Types}.

Lemma Value_WithValue_same (ctx : context.Context) (k : context.key) (v : context.any) :
  context.Value (context.WithValue ctx k v) k = Some v.
Proof.
  unfold context.Value, context.WithValue. simpl.
  destruct (decide (k = k)); [reflexivity | congruence].
Qed.

(** [TagConn] tags, and [Hello] reads the tag back. *)
Lemma Hello_tagged (random : string * option error) (ctx : context.Context) (w : World) :
  exists w',
    TagConn random ctx w
    = (Returned (context.WithValue ctx clientID (context.any_string (fst random))), w')
    /\ module w' = module w
    /\ (forall req w2,
          Hello (context.WithValue ctx clientID (context.any_string (fst random))) req w2
          = (Returned (Some {| pb.HelloResponse_Id := fst random |}, None), w2)).
Proof.
  unfold TagConn, log_Err. unfold_M.
  destruct random as [id [err |]]; simpl; eexists; split_and!; reflexivity.
Qed.

(** X1.  Whatever [randomString] answered, [TagConn] returns a context from
    which [Hello] reads that identity back, also when the incoming context
    already carried one; a failure of [randomString] costs one log line and
    nothing else, and the server's fields are not touched. *)
Theorem Hello_after_TagConn
    (random : string * option error) (ctx : context.Context) (w : World) :
  exists ctx' w',
    TagConn random ctx w = (Returned ctx', w')
    /\ module w' = module w
    /\ chans w' = chans w
    /\ log w' = log w ++ match snd random with
                         | Some err => [{| log_err := err;
                                           log_msg := "invalid random string" |}]
                         | None => []
                         end
    /\ (forall req w2,
          Hello ctx' req w2
          = (Returned (Some {| pb.HelloResponse_Id := fst random |}, None), w2)).
Proof.
  exists (context.WithValue ctx clientID (context.any_string (fst random))).
  unfold TagConn, log_Err. unfold_M.
  destruct random as [id [err |]]; simpl.
  - eexists. split_and!; reflexivity.
  - eexists. split_and!; try reflexivity. simpl. now rewrite app_nil_r.
Qed.

(** X2.  On a context that carries an identity and with the mutex free,
    [HandleConn] returns normally for every kind of stats value, with the
    mutex released again; it makes no storage call, keeps the storage
    collaborator, and leaves the entry of every other identity as it was. *)
Theorem HandleConn_returns_unlocked
    (ctx : context.Context) (id : string) (s : stats.ConnStats) (w : World) :
  context.Value ctx clientID = Some (context.any_string id) ->
  subsMx (module w) = false ->
  let w' := snd (HandleConn ctx s w) in
  fst (HandleConn ctx s w) = Returned tt
  /\ subsMx (module w') = false
  /\ storage (module w') = storage (module w)
  /\ calls w' = calls w
  /\ (forall id', id' <> id ->
        subscribers (module w') !! id' = subscribers (module w) !! id').
Proof.
  intros Hctx Hmx. cbv zeta. destruct s.
  - rewrite (HandleConn_ConnBegin_eval ctx id w Hctx Hmx). simpl.
    destruct (subscribers (module w) !! id) eqn:E; simpl; split_and!; auto.
    intros id' Hne. now rewrite lookup_insert_ne.
  - rewrite (HandleConn_ConnEnd_eval ctx id w Hctx Hmx). simpl.
    destruct (subscribers (module w) !! id) eqn:E; simpl; split_and!; auto.
    intros id' Hne. now rewrite lookup_delete_ne.
  - unfold HandleConn. unfold_M. rewrite (assert_string_tagged ctx id w Hctx).
    simpl. split_and!; auto.
Qed.

(** X3.  A connection-begin under an identity that is already registered
    changes nothing: the bundle and the subscription it holds are kept.
    Hence, when two connections carry the same identity, the end of the
    first removes the entry they share although the second is still
    open. *)
Theorem shared_identity_loses_its_entry
    (ctx : context.Context) (id : string) (w : World) :
  context.Value ctx clientID = Some (context.any_string id) ->
  subsMx (module w) = false ->
  (is_Some (subscribers (module w) !! id) ->
   HandleConn ctx stats.ConnBegin w = (Returned tt, w))
  /\ (let w1 := snd (HandleConn ctx stats.ConnBegin w) in
      let w2 := snd (HandleConn ctx stats.ConnBegin w1) in
      let w3 := snd (HandleConn ctx stats.ConnEnd w2) in
      is_Some (subscribers (module w2) !! id)
      /\ subscribers (module w3) !! id = None
      /\ open_after [] [Begin id; Begin id; End_ id] = [id]).
Proof.
  intros Hctx Hmx. split.
  - intros [subs Hid]. rewrite (HandleConn_ConnBegin_eval ctx id w Hctx Hmx).
    now rewrite Hid.
  - cbv zeta.
    assert (H1 : subsMx (module (snd (HandleConn ctx stats.ConnBegin w))) = false
                 /\ is_Some (subscribers (module (snd (HandleConn ctx stats.ConnBegin w))) !! id)).
    { rewrite (HandleConn_ConnBegin_eval ctx id w Hctx Hmx). simpl.
      destruct (subscribers (module w) !! id) eqn:E; simpl.
      - split; [exact Hmx | rewrite E; eauto].
      - split; [exact Hmx | rewrite lookup_insert_eq; eauto]. }
    destruct H1 as [Hmx1 [subs Hid1]].
    set (w1 := snd (HandleConn ctx stats.ConnBegin w)) in *.
    rewrite (HandleConn_ConnBegin_eval ctx id w1 Hctx Hmx1), Hid1. simpl.
    rewrite (HandleConn_ConnEnd_eval ctx id w1 Hctx Hmx1), Hid1. simpl.
    split_and!.
    + eauto.
    + apply lookup_delete_eq.
    + simpl. destruct (decide (id = id)); [reflexivity | congruence].
Qed.

End HookProperties.

(** ** Further properties of the subscription handlers *)

Section SubscriptionProperties.

Context `{ST : storage.Types} `{W : !Wire}.

(** X4.  The dispatch loop returns nil exactly when its stream meets a done
    context or a send that fails with [io.EOF]; otherwise it stays parked in
    the [select].  Up to that point it writes one log line per failed send,
    in order, and nothing that follows the stopping outcome is looked at. *)
Theorem dispatch_outcome_and_log
    (ch : subscriptions.ChanRef) (stream : list Select) (w : World) :
  dispatch ch stream w
  = (if existsb is_stop stream then Returned None else Parked OnSelect,
     add_logs (omap send_failure (before_stop stream)) w).
Proof. apply dispatch_run. Qed.

(** X5.  A subscribe call on a registered identity, the mutex being free,
    never fails and never panics: it returns nil or stays parked in its
    loop, and in both cases the mutex is free afterwards.  The bundle keeps
    its [ID] and refers to the fresh channel, one open channel was added to
    the heap, and no other entry of the registry has changed. *)
Theorem SubscribeOnMetadata_registered
    (req : pb.DefaultRequest) (stream : list Select) (w : World)
    (subs : subscriptions.Subscriptions) :
  subsMx (module w) = false ->
  subscribers (module w) !! pb.Id req = Some subs ->
  let w' := snd (SubscribeOnMetadata req stream w) in
  fst (SubscribeOnMetadata req stream w)
  = (if existsb is_stop stream then Returned None else Parked OnSelect)
  /\ subsMx (module w') = false
  /\ subscribers (module w') !! pb.Id req
     = Some {| subscriptions.ID := subscriptions.ID subs;
               subscriptions.Metadata := Some (List.length (chans w)) |}
  /\ chans w' = chans w ++ [subscriptions.ChanOpen]
  /\ (forall id', id' <> pb.Id req ->
        subscribers (module w') !! id' = subscribers (module w) !! id')
  /\ dom (subscribers (module w')) = dom (subscribers (module w)).
Proof.
  intros Hmx Hid. cbv zeta.
  rewrite (SubscribeOnMetadata_known req stream w subs Hmx Hid).
  rewrite dispatch_run. simpl. split_and!.
  - reflexivity.
  - reflexivity.
  - now rewrite lookup_alter_eq, Hid.
  - reflexivity.
  - intros id' Hne. now rewrite lookup_alter_ne.
  - apply dom_alter_L.
Qed.

(** X6.  An unsubscribe call on a connection that holds a live channel
    clears the reference in the bundle and acknowledges; the channel itself
    is not closed (the heap is as before), the mutex is free afterwards and
    no other entry has changed. *)
Theorem UnsubscribeFromMetadata_detaches
    (ctx : context.Context) (req : pb.DefaultRequest) (w : World)
    (subs : subscriptions.Subscriptions) :
  subsMx (module w) = false ->
  subscribers (module w) !! pb.Id req = Some subs ->
  let w' := snd (UnsubscribeFromMetadata ctx req w) in
  fst (UnsubscribeFromMetadata ctx req w)
  = Returned (Some {| pb.Message_ := "success" |}, None)
  /\ subscribers (module w') !! pb.Id req
     = Some {| subscriptions.ID := subscriptions.ID subs;
               subscriptions.Metadata := None |}
  /\ chans w' = chans w
  /\ subsMx (module w') = false
  /\ (forall id', id' <> pb.Id req ->
        subscribers (module w') !! id' = subscribers (module w) !! id').
Proof.
  intros Hmx Hid. cbv zeta.
  rewrite (UnsubscribeFromMetadata_known ctx req w subs Hmx Hid). simpl.
  split_and!.
  - reflexivity.
  - now rewrite lookup_alter_eq, Hid.
  - reflexivity.
  - exact Hmx.
  - intros id' Hne. now rewrite lookup_alter_ne.
Qed.

(** X7.  Subscribing and then unsubscribing on a connection that held no
    channel gives the registry back as it was, with the mutex free; the
    channel created in between stays in the heap, open. *)
Theorem subscribe_then_unsubscribe
    (id : string) (stream : list Select) (w : World)
    (subs : subscriptions.Subscriptions) :
  subsMx (module w) = false ->
  subscribers (module w) !! id = Some subs ->
  subscriptions.Metadata subs = None ->
  let w' := after_ops [OpSubscribe id stream; OpUnsubscribe id] w in
  module w' = module w
  /\ chans w' = chans w ++ [subscriptions.ChanOpen].
Proof.
  intros Hmx Hid Hnone. cbv zeta. unfold after_ops. simpl.
  rewrite (SubscribeOnMetadata_known {| pb.Id := id |} stream w subs Hmx Hid).
  rewrite dispatch_run. simpl.
  set (w1 := add_logs _ _).
  assert (Hmx1 : subsMx (module w1) = false) by reflexivity.
  assert (Hid1 : subscribers (module w1) !! id
                 = Some {| subscriptions.ID := subscriptions.ID subs;
                           subscriptions.Metadata := Some (List.length (chans w)) |}).
  { subst w1. simpl. now rewrite lookup_alter_eq, Hid. }
  rewrite (UnsubscribeFromMetadata_known context.Background {| pb.Id := id |} w1 _
             Hmx1 Hid1).
  subst w1. simpl. split; [| reflexivity].
  destruct w as [[st m mx] c l ca]. simpl in *. subst mx. f_equal.
  apply map_eq. intros k. destruct (decide (k = id)) as [-> | Hne].
  - rewrite !lookup_alter_eq, Hid. simpl.
    destruct subs as [i md]. simpl in *. now subst md.
  - now rewrite !lookup_alter_ne.
Qed.

(** With the mutex held, a call parks in [Lock] and changes nothing. *)
Lemma after_op_held (op : Op) (w : World) :
  subsMx (module w) = true -> after_op op w = w.
Proof.
  intros Hmx. destruct op as [id | id | id stream | id]; simpl.
  - unfold HandleConn. unfold_M. simpl. now rewrite (Lock_held w Hmx).
  - unfold HandleConn. unfold_M. simpl. now rewrite (Lock_held w Hmx).
  - unfold SubscribeOnMetadata. unfold_M. now rewrite (Lock_held w Hmx).
  - unfold UnsubscribeFromMetadata. unfold_M. now rewrite (Lock_held w Hmx).
Qed.

(** X8.  While the mutex is held no call changes anything: connection
    begins and ends, subscribes and unsubscribes all park in [Lock].  A
    handler that returned without unlocking therefore freezes the registry
    for good. *)
Theorem held_mutex_freezes_the_registry (ops : list Op) (w : World) :
  subsMx (module w) = true ->
  after_ops ops w = w.
Proof.
  intros Hmx. unfold after_ops. induction ops as [| op rest IH]; [reflexivity |].
  simpl. now rewrite (after_op_held op w Hmx).
Qed.

End SubscriptionProperties.

(** ** Invariants of the registry *)

Section Invariants.

Context `{ST : storage.Types} `{W : !Wire}.

(** What one call can do to the registry and to the heap of channels. *)
Lemma after_op_shape (op : Op) (w : World) :
  let m := subscribers (module w) in
  let c := chans w in
  let m' := subscribers (module (after_op op w)) in
  let c' := chans (after_op op w) in
  (m' = m /\ c' = c)
  \/ (exists id subs,
        m !! id = Some subs
        /\ m' = alter (fun s => {| subscriptions.ID := subscriptions.ID s;
                                   subscriptions.Metadata := Some (List.length c) |}) id m
        /\ c' = c ++ [subscriptions.ChanOpen])
  \/ (exists id,
        m' = alter (fun s => {| subscriptions.ID := subscriptions.ID s;
                                subscriptions.Metadata := None |}) id m
        /\ c' = c)
  \/ (exists id,
        m !! id = None
        /\ m' = <[id := {| subscriptions.ID := id; subscriptions.Metadata := None |}]> m
        /\ c' = c)
  \/ (exists id subs,
        m !! id = Some subs
        /\ m' = delete id m
        /\ c' = snd (subscriptions.Close subs c)).
Proof.
  cbv zeta. destruct (subsMx (module w)) eqn:Hmx.
  { left. rewrite (after_op_held op w Hmx). now split. }
  destruct op as [id | id | id stream | id]; simpl.
  - rewrite (HandleConn_ConnBegin_eval (conn_context id) id w
               (Value_conn_context id) Hmx). simpl.
    destruct (subscribers (module w) !! id) eqn:E.
    + left. now split.
    + right. right. right. left. exists id. now split_and!.
  - rewrite (HandleConn_ConnEnd_eval (conn_context id) id w
               (Value_conn_context id) Hmx). simpl.
    destruct (subscribers (module w) !! id) as [subs |] eqn:E.
    + right. right. right. right. exists id, subs. now split_and!.
    + left. now split.
  - destruct (subscribers (module w) !! id) as [subs |] eqn:E.
    + rewrite (SubscribeOnMetadata_known {| pb.Id := id |} stream w subs Hmx E).
      rewrite dispatch_run. simpl.
      right. left. exists id, subs. now split_and!.
    + rewrite (SubscribeOnMetadata_unknown {| pb.Id := id |} stream w Hmx E).
      left. now split.
  - destruct (subscribers (module w) !! id) as [subs |] eqn:E.
    + rewrite (UnsubscribeFromMetadata_known context.Background {| pb.Id := id |}
                 w subs Hmx E). simpl.
      right. right. left. exists id. now split.
    + rewrite (UnsubscribeFromMetadata_unknown context.Background {| pb.Id := id |}
                 w Hmx E).
      left. now split.
Qed.

Lemma keyed_after_op (op : Op) (w : World) : keyed w -> keyed (after_op op w).
Proof.
  intros Hk. unfold keyed in *.
  destruct (after_op_shape op w)
    as [[Hm _] | [(i & subs & Hi & Hm & _) | [(i & Hm & _)
       | [(i & Hi & Hm & _) | (i & subs & Hi & Hm & _)]]]];
    rewrite Hm; intros id s.
  - apply Hk.
  - destruct (decide (i = id)) as [-> | Hne].
    + rewrite lookup_alter_eq, Hi. simpl. intros [= <-]. simpl. now apply Hk.
    + rewrite lookup_alter_ne by exact Hne. apply Hk.
  - destruct (decide (i = id)) as [-> | Hne].
    + rewrite lookup_alter_eq.
      destruct (subscribers (module w) !! id) as [s0 |] eqn:E; simpl; [| discriminate].
      intros [= <-]. simpl. now apply Hk.
    + rewrite lookup_alter_ne by exact Hne. apply Hk.
  - destruct (decide (i = id)) as [-> | Hne].
    + rewrite lookup_insert_eq. now intros [= <-].
    + rewrite lookup_insert_ne by exact Hne. apply Hk.
  - destruct (decide (i = id)) as [-> | Hne].
    + rewrite lookup_delete_eq. discriminate.
    + rewrite lookup_delete_ne by exact Hne. apply Hk.
Qed.

(** X9.  Whatever calls reach the server, in whatever order and whether
    they succeed, fail or park, every bundle of the registry carries the key
    it is registered under: [subs.ID] is never out of step with the map. *)
Theorem bundles_stay_keyed (ops : list Op) (w : World) :
  keyed w -> keyed (after_ops ops w).
Proof.
  unfold after_ops. revert w.
  induction ops as [| op rest IH]; intros w Hk; simpl; [exact Hk |].
  apply IH. now apply keyed_after_op.
Qed.

Lemma live_unshared_after_op (op : Op) (w : World) :
  live w -> unshared w ->
  live (after_op op w) /\ unshared (after_op op w).
Proof.
  intros Hl Hu. unfold live, unshared in *.
  destruct (after_op_shape op w)
    as [[Hm Hc] | [(i & subs & Hi & Hm & Hc) | [(i & Hm & Hc)
       | [(i & Hi & Hm & Hc) | (i & subs & Hi & Hm & Hc)]]]];
    rewrite Hm, Hc; clear Hm Hc.
  - split; assumption.
  - (* a fresh channel installed under [i] *)
    assert (Hold : forall id s ch,
               subscribers (module w) !! id = Some s ->
               subscriptions.Metadata s = Some ch ->
               (ch < List.length (chans w))%nat).
    { intros id s ch Hs Hch.
      apply lookup_lt_Some with (x := subscriptions.ChanOpen). eauto. }
    split.
    + intros id s ch. destruct (decide (i = id)) as [-> | Hne].
      * rewrite lookup_alter_eq, Hi. simpl. intros [= <-]. simpl. intros [= <-].
        rewrite lookup_app_r by lia. now rewrite Nat.sub_diag.
      * rewrite lookup_alter_ne by exact Hne. intros Hs Hch.
        rewrite lookup_app_l by eauto. eauto.
    + intros id1 id2 s1 s2 ch.
      destruct (decide (i = id1)) as [E1 | Hne1];
        destruct (decide (i = id2)) as [E2 | Hne2]; [congruence | | |].
      * subst id1. rewrite lookup_alter_eq, Hi, lookup_alter_ne by exact Hne2. simpl.
        intros [= <-] Hs2. simpl. intros [= <-] Hch2.
        pose proof (Hold _ _ _ Hs2 Hch2). lia.
      * subst id2. rewrite lookup_alter_eq, Hi, lookup_alter_ne by exact Hne1. simpl.
        intros Hs1 [= <-] Hch1. simpl. intros [= <-].
        pose proof (Hold _ _ _ Hs1 Hch1). lia.
      * rewrite !lookup_alter_ne by assumption. apply Hu.
  - (* the reference under [i] cleared *)
    split.
    + intros id s ch. destruct (decide (i = id)) as [-> | Hne].
      * rewrite lookup_alter_eq.
        destruct (subscribers (module w) !! id); simpl; [| discriminate].
        intros [= <-]. discriminate.
      * rewrite lookup_alter_ne by exact Hne. apply Hl.
    + intros id1 id2 s1 s2 ch.
      destruct (decide (i = id1)) as [-> | Hne1].
      * rewrite lookup_alter_eq.
        destruct (subscribers (module w) !! id1); simpl; [| discriminate].
        intros [= <-]. discriminate.
      * destruct (decide (i = id2)) as [-> | Hne2].
        -- rewrite (lookup_alter_eq _ _ id2).
           destruct (subscribers (module w) !! id2); simpl; [| discriminate].
           intros _ [= <-]. discriminate.
        -- rewrite !lookup_alter_ne by assumption. apply Hu.
  - (* an empty bundle registered under [i] *)
    split.
    + intros id s ch. destruct (decide (i = id)) as [-> | Hne].
      * rewrite lookup_insert_eq. intros [= <-]. discriminate.
      * rewrite lookup_insert_ne by exact Hne. apply Hl.
    + intros id1 id2 s1 s2 ch.
      destruct (decide (i = id1)) as [-> | Hne1].
      * rewrite lookup_insert_eq. intros [= <-]. discriminate.
      * destruct (decide (i = id2)) as [-> | Hne2].
        -- rewrite (lookup_insert_eq _ id2). intros _ [= <-]. discriminate.
        -- rewrite !lookup_insert_ne by assumption. apply Hu.
  - (* the bundle under [i] closed and removed *)
    split.
    + intros id s ch. destruct (decide (i = id)) as [-> | Hne].
      * rewrite lookup_delete_eq. discriminate.
      * rewrite lookup_delete_ne by exact Hne. intros Hs Hch.
        unfold subscriptions.Close.
        destruct (subscriptions.Metadata subs) as [ch0 |] eqn:E0; simpl; [| eauto].
        unfold subscriptions.close_chan.
        rewrite list_lookup_insert_ne; [eauto |].
        intros <-. apply Hne. exact (Hu _ _ _ _ _ Hi Hs E0 Hch).
    + intros id1 id2 s1 s2 ch.
      destruct (decide (i = id1)) as [-> | Hne1]; [rewrite lookup_delete_eq; discriminate |].
      destruct (decide (i = id2)) as [-> | Hne2].
      * rewrite (lookup_delete_eq _ id2). discriminate.
      * rewrite !lookup_delete_ne by assumption. apply Hu.
Qed.

(** X10.  Whatever calls reach the server, no channel is ever shared by the
    bundles of two identities, and the channel a registered bundle refers
    to is open: a channel is closed only together with the removal of the
    one entry that held it. *)
Theorem channels_stay_live_and_unshared (ops : list Op) (w : World) :
  live w -> unshared w ->
  live (after_ops ops w) /\ unshared (after_ops ops w).
Proof.
  unfold after_ops. revert w.
  induction ops as [| op rest IH]; intros w Hl Hu; simpl; [now split |].
  destruct (live_unshared_after_op op w Hl Hu) as [Hl' Hu'].
  now apply IH.
Qed.

End Invariants.

(** ** Further properties of the query handlers *)

Section QueryProperties.

Context `{ST : storage.Types} `{W : !Wire}.

(** X11.  The query handlers never take the mutex and never touch the
    registry, the channels or the log: they never park, they give the same
    outcome and leave the same world whether the mutex is free or held, and
    all they leave behind is at most one recorded storage call. *)
Theorem queries_leave_the_server_alone (ctx : context.Context) (w : World) :
  (forall req,
     let w' := snd (GetMetadata ctx req w) in
     module w' = module w /\ chans w' = chans w /\ log w' = log w
     /\ (List.length (calls w') <= List.length (calls w) + 1)%nat
     /\ (forall on, fst (GetMetadata ctx req w) <> Parked on)
     /\ (forall held,
           GetMetadata ctx req (set_subsMx held w)
           = (fst (GetMetadata ctx req w), set_subsMx held w')))
  /\ (forall req,
     let w' := snd (ListMetadata ctx req w) in
     module w' = module w /\ chans w' = chans w /\ log w' = log w
     /\ List.length (calls w') = (List.length (calls w) + 1)%nat
     /\ (forall on, fst (ListMetadata ctx req w) <> Parked on)
     /\ (forall held,
           ListMetadata ctx req (set_subsMx held w)
           = (fst (ListMetadata ctx req w), set_subsMx held w')))
  /\ (forall req,
     let w' := snd (GetMetadataByMethodSinature ctx req w) in
     module w' = module w /\ chans w' = chans w /\ log w' = log w
     /\ (List.length (calls w') <= List.length (calls w) + 1)%nat
     /\ (forall on, fst (GetMetadataByMethodSinature ctx req w) <> Parked on)
     /\ (forall held,
           GetMetadataByMethodSinature ctx req (set_subsMx held w)
           = (fst (GetMetadataByMethodSinature ctx req w), set_subsMx held w')))
  /\ (forall req,
     let w' := snd (GetMetadataByTopic ctx req w) in
     module w' = module w /\ chans w' = chans w /\ log w' = log w
     /\ (List.length (calls w') <= List.length (calls w) + 1)%nat
     /\ (forall on, fst (GetMetadataByTopic ctx req w) <> Parked on)
     /\ (forall held,
           GetMetadataByTopic ctx req (set_subsMx held w)
           = (fst (GetMetadataByTopic ctx req w), set_subsMx held w'))).
Proof.
  split_and!; intros req; cbv zeta.
  - unfold GetMetadata, call_GetByAddress. unfold_M.
    destruct req as [r |]; simpl.
    + destruct (storage.GetByAddress _ _ _) as [m [e |]]; simpl;
        rewrite ?length_app; simpl; split_and!; auto; try lia; discriminate.
    + split_and!; auto; try lia; discriminate.
  - unfold ListMetadata, call_List. unfold_M. simpl.
    destruct (storage.List _ _ _ _ _) as [l [e |]]; simpl;
      rewrite ?length_app; simpl; split_and!; auto; discriminate.
  - unfold GetMetadataByMethodSinature, call_GetByMethodSinature. unfold_M.
    destruct req as [r |]; simpl.
    + destruct (storage.GetByMethodSinature _ _ _ _ _ _) as [l [e |]]; simpl;
        rewrite ?length_app; simpl; split_and!; auto; try lia; discriminate.
    + split_and!; auto; try lia; discriminate.
  - unfold GetMetadataByTopic, call_GetByTopic. unfold_M.
    destruct req as [r |]; simpl.
    + destruct (storage.GetByTopic _ _ _ _ _ _) as [l [e |]]; simpl;
        rewrite ?length_app; simpl; split_and!; auto; try lia; discriminate.
    + split_and!; auto; try lia; discriminate.
Qed.

(** X12.  A nil request is handled differently by each query handler:
    [GetMetadata] rejects it with the error "invalid request" and calls
    nothing; [ListMetadata] goes on with the page [new(page)] and lists from
    offset 0 with limit 0; the two filtered listings panic on the nil
    pointer when they read the filter, before any storage call. *)
Theorem queries_on_nil_request (ctx : context.Context) (w : World) :
  GetMetadata ctx None w = (Returned (None, Some (errors_New "invalid request")), w)
  /\ calls (snd (ListMetadata ctx None w))
     = calls w ++ [storage.CallList ctx 0 0 storage.SortOrder_zero]
  /\ (exists msg, GetMetadataByMethodSinature ctx None w = (Panicked msg, w))
  /\ (exists msg, GetMetadataByTopic ctx None w = (Panicked msg, w)).
Proof.
  split_and!.
  - reflexivity.
  - unfold ListMetadata, call_List. unfold_M. simpl.
    destruct (storage.List _ _ _ _ _) as [l [e |]]; reflexivity.
  - eexists. reflexivity.
  - eexists. reflexivity.
Qed.

(** X13.  Each listing handler hands the caller's context to the storage
    as it is (no timeout is added) and returns what the storage answered:
    on an error, nil and that very error; otherwise the records converted
    by [ListMetadataResponse] and a nil error. *)
Theorem listings_return_the_storage_answer (ctx : context.Context) (w : World) :
  let st := storage.Metadata_ (storage (module w)) in
  (forall req,
     let p := newPage (pb.ListMetadataRequest_GetPage req) in
     let answer := storage.List st ctx (limit p) (offset p) (order p) in
     fst (ListMetadata ctx req w)
     = Returned (match snd answer with
                 | Some err => (None, Some err)
                 | None => (ListMetadataResponse (fst answer), None)
                 end))
  /\ (forall r,
        let p := newPage (pb.BySignature_Page r) in
        let answer := storage.GetByMethodSinature st ctx (pb.Signature r)
                        (limit p) (offset p) (order p) in
        fst (GetMetadataByMethodSinature ctx (Some r) w)
        = Returned (match snd answer with
                    | Some err => (None, Some err)
                    | None => (ListMetadataResponse (fst answer), None)
                    end))
  /\ (forall r,
        let p := newPage (pb.ByTopic_Page r) in
        let answer := storage.GetByTopic st ctx (pb.Topic r)
                        (limit p) (offset p) (order p) in
        fst (GetMetadataByTopic ctx (Some r) w)
        = Returned (match snd answer with
                    | Some err => (None, Some err)
                    | None => (ListMetadataResponse (fst answer), None)
                    end)).
Proof.
  cbv zeta. split_and!.
  - intros req. unfold ListMetadata, call_List. unfold_M.
    destruct (storage.List _ _ _ _ _) as [l [e |]]; reflexivity.
  - intros r. unfold GetMetadataByMethodSinature, call_GetByMethodSinature.
    unfold_M. simpl.
    destruct (storage.GetByMethodSinature _ _ _ _ _ _) as [l [e |]]; reflexivity.
  - intros r. unfold GetMetadataByTopic, call_GetByTopic. unfold_M. simpl.
    destruct (storage.GetByTopic _ _ _ _ _ _) as [l [e |]]; reflexivity.
Qed.

End QueryProperties.

(** ** Calls composed *)

Section Composition.

Context `{ST : storage.Types} `{W : !Wire}.

(** X14.  The life of a connection, end to end: once [TagConn] has tagged
    the context and the connection-begin has been handled, [Hello] reports
    an identity, and a subscribe call under that identity is accepted (it
    returns nil or stays in its loop, the mutex free) -- also when
    [randomString] had failed. *)
Theorem connect_hello_subscribe
    (random : string * option error) (ctx : context.Context)
    (stream : list Select) (w : World) :
  subsMx (module w) = false ->
  exists ctx' w1 w2 id,
    TagConn random ctx w = (Returned ctx', w1)
    /\ HandleConn ctx' stats.ConnBegin w1 = (Returned tt, w2)
    /\ Hello ctx' None w2 = (Returned (Some {| pb.HelloResponse_Id := id |}, None), w2)
    /\ fst (SubscribeOnMetadata {| pb.Id := id |} stream w2)
       = (if existsb is_stop stream then Returned None else Parked OnSelect)
    /\ subsMx (module (snd (SubscribeOnMetadata {| pb.Id := id |} stream w2))) = false.
Proof.
  intros Hmx.
  destruct (Hello_tagged random ctx w) as (w1 & Htag & Hmod & Hhello).
  set (ctx' := context.WithValue ctx clientID (context.any_string (fst random))) in *.
  assert (Hctx : context.Value ctx' clientID = Some (context.any_string (fst random)))
    by apply Value_WithValue_same.
  assert (Hmx1 : subsMx (module w1) = false) by (now rewrite Hmod).
  pose proof (HandleConn_ConnBegin_eval ctx' (fst random) w1 Hctx Hmx1) as Hbegin.
  set (w2 := match subscribers (module w1) !! fst random with
             | Some _ => w1
             | None => connected (fst random) w1
             end) in *.
  assert (H2 : subsMx (module w2) = false
               /\ exists subs, subscribers (module w2) !! fst random = Some subs).
  { subst w2. destruct (subscribers (module w1) !! fst random) eqn:E; simpl.
    - split; [exact Hmx1 | eauto].
    - split; [exact Hmx1 | rewrite lookup_insert_eq; eauto]. }
  destruct H2 as [Hmx2 [subs Hid2]].
  exists ctx', w1, w2, (fst random). split_and!.
  - exact Htag.
  - exact Hbegin.
  - apply Hhello.
  - rewrite (SubscribeOnMetadata_known {| pb.Id := fst random |} stream w2 subs Hmx2 Hid2).
    now rewrite dispatch_run.
  - rewrite (SubscribeOnMetadata_known {| pb.Id := fst random |} stream w2 subs Hmx2 Hid2).
    now rewrite dispatch_run.
Qed.

(** X15.  Subscribe and unsubscribe calls never create and never delete an
    entry of the registry, on any of their paths (parked on the mutex,
    unknown identity, success): the identities registered are those the
    connection hook put there. *)
Theorem handlers_keep_the_identities
    (ctx : context.Context) (req : pb.DefaultRequest) (stream : list Select)
    (w : World) :
  dom (subscribers (module (snd (SubscribeOnMetadata req stream w))))
  = dom (subscribers (module w))
  /\ dom (subscribers (module (snd (UnsubscribeFromMetadata ctx req w))))
     = dom (subscribers (module w)).
Proof.
  destruct (subsMx (module w)) eqn:Hmx.
  - unfold SubscribeOnMetadata, UnsubscribeFromMetadata. unfold_M.
    rewrite (Lock_held w Hmx). now split.
  - destruct (subscribers (module w) !! pb.Id req) as [subs |] eqn:E.
    + rewrite (SubscribeOnMetadata_known req stream w subs Hmx E), dispatch_run.
      rewrite (UnsubscribeFromMetadata_known ctx req w subs Hmx E). simpl.
      split; apply dom_alter_L.
    + rewrite (SubscribeOnMetadata_unknown req stream w Hmx E).
      rewrite (UnsubscribeFromMetadata_unknown ctx req w Hmx E). now split.
Qed.

(** A channel that no bundle refers to is left alone by one call, and no
    bundle refers to it afterwards. *)
Lemma unreferenced_after_op (op : Op) (w : World) (ch : subscriptions.ChanRef) :
  (forall id s, subscribers (module w) !! id = Some s ->
                subscriptions.Metadata s <> Some ch) ->
  (ch < List.length (chans w))%nat ->
  (forall id s, subscribers (module (after_op op w)) !! id = Some s ->
                subscriptions.Metadata s <> Some ch)
  /\ (ch < List.length (chans (after_op op w)))%nat
  /\ chans (after_op op w) !! ch = chans w !! ch.
Proof.
  intros Hun Hlt.
  destruct (after_op_shape op w)
    as [[Hm Hc] | [(i & subs & Hi & Hm & Hc) | [(i & Hm & Hc)
       | [(i & Hi & Hm & Hc) | (i & subs & Hi & Hm & Hc)]]]];
    rewrite Hm, Hc; clear Hm Hc.
  - now split_and!.
  - split_and!.
    + intros id s. destruct (decide (i = id)) as [-> | Hne].
      * rewrite lookup_alter_eq, Hi. simpl. intros [= <-]. simpl.
        intros [= E]. lia.
      * rewrite lookup_alter_ne by exact Hne. apply Hun.
    + rewrite length_app. simpl. lia.
    + now rewrite lookup_app_l.
  - split_and!; auto.
    intros id s. destruct (decide (i = id)) as [-> | Hne].
    + rewrite lookup_alter_eq.
      destruct (subscribers (module w) !! id); simpl; [| discriminate].
      intros [= <-]. discriminate.
    + rewrite lookup_alter_ne by exact Hne. apply Hun.
  - split_and!; auto.
    intros id s. destruct (decide (i = id)) as [-> | Hne].
    + rewrite lookup_insert_eq. intros [= <-]. discriminate.
    + rewrite lookup_insert_ne by exact Hne. apply Hun.
  - unfold subscriptions.Close.
    destruct (subscriptions.Metadata subs) as [ch0 |] eqn:E0; simpl.
    + unfold subscriptions.close_chan. split_and!.
      * intros id s. destruct (decide (i = id)) as [-> | Hne].
        -- rewrite lookup_delete_eq. discriminate.
        -- rewrite lookup_delete_ne by exact Hne. apply Hun.
      * now rewrite length_insert.
      * apply list_lookup_insert_ne. intros ->. exact (Hun _ _ Hi E0).
    + split_and!; auto.
      intros id s. destruct (decide (i = id)) as [-> | Hne].
      * rewrite lookup_delete_eq. discriminate.
      * rewrite lookup_delete_ne by exact Hne. apply Hun.
Qed.

(** X16.  A channel of the heap that no bundle refers to -- one replaced by
    a later subscribe, or detached by an unsubscribe -- is never touched
    again: whatever calls follow, connection ends included, it keeps its
    state, so it is never closed. *)
Theorem unreferenced_channel_is_never_closed
    (ops : list Op) (w : World) (ch : subscriptions.ChanRef) :
  (forall id s, subscribers (module w) !! id = Some s ->
                subscriptions.Metadata s <> Some ch) ->
  (ch < List.length (chans w))%nat ->
  chans (after_ops ops w) !! ch = chans w !! ch.
Proof.
  unfold after_ops. revert w.
  induction ops as [| op rest IH]; intros w Hun Hlt; simpl; [reflexivity |].
  destruct (unreferenced_after_op op w ch Hun Hlt) as (Hun' & Hlt' & Heq).
  rewrite (IH (after_op op w) Hun' Hlt'). exact Heq.
Qed.

(** X17.  A whole connection under a fresh identity -- begin, subscribe,
    end -- leaves the registry as it found it and the mutex free; the
    channel of the subscription is in the heap, closed. *)
Theorem connection_leaves_no_entry (id : string) (stream : list Select) (w : World) :
  subsMx (module w) = false ->
  subscribers (module w) !! id = None ->
  let w' := after_ops [OpBegin id; OpSubscribe id stream; OpEnd id] w in
  module w' = module w
  /\ chans w' = chans w ++ [subscriptions.ChanClosed].
Proof.
  intros Hmx Hid. cbv zeta. unfold after_ops. simpl.
  rewrite (HandleConn_ConnBegin_eval (conn_context id) id w (Value_conn_context id) Hmx).
  rewrite Hid. simpl.
  assert (Hid1 : subscribers (module (connected id w)) !! id
                 = Some {| subscriptions.ID := id; subscriptions.Metadata := None |})
    by (simpl; apply lookup_insert_eq).
  rewrite (SubscribeOnMetadata_known {| pb.Id := id |} stream (connected id w) _ Hmx Hid1).
  rewrite dispatch_run. simpl.
  set (w2 := add_logs _ _).
  assert (Hmx2 : subsMx (module w2) = false) by reflexivity.
  rewrite (HandleConn_ConnEnd_eval (conn_context id) id w2 (Value_conn_context id) Hmx2).
  subst w2. simpl. rewrite lookup_alter_eq, lookup_insert_eq. simpl.
  unfold subscriptions.close_chan. split.
  - destruct w as [[st m mx] c l ca]. simpl in *. subst mx. f_equal.
    apply map_eq. intros k. destruct (decide (k = id)) as [-> | Hne].
    + now rewrite lookup_delete_eq, Hid.
    + now rewrite lookup_delete_ne, lookup_alter_ne, lookup_insert_ne by congruence.
  - rewrite insert_app_r_alt by lia. now rewrite Nat.sub_diag.
Qed.

End Composition.

(** ** The further properties at concrete inputs *)

Lemma Fixture_subscribed_lookup (id : string) (s : subscriptions.Subscriptions) :
  subscribers (module Fixture.subscribed) !! id = Some s ->
  id = "c1" /\ s = {| subscriptions.ID := "c1"; subscriptions.Metadata := Some 0%nat |}.
Proof.
  unfold Fixture.subscribed, Fixture.world. simpl.
  intros H. apply lookup_singleton_Some in H as [<- <-]. now split.
Qed.

Lemma HandleConn_returns_unlocked_witness :
  context.Value (Fixture.tagged "c1") clientID = Some (context.any_string "c1")
  /\ subsMx (module Fixture.subscribed) = false
  /\ fst (HandleConn (Fixture.tagged "c1") stats.ConnEnd Fixture.subscribed) = Returned tt
  /\ subsMx (module (snd (HandleConn (Fixture.tagged "c1") stats.ConnEnd
                            Fixture.subscribed))) = false.
Proof.
  pose proof (HandleConn_returns_unlocked (Fixture.tagged "c1") "c1" stats.ConnEnd
                Fixture.subscribed eq_refl eq_refl) as H.
  cbv zeta in H. destruct H as (H1 & H2 & _).
  split; [reflexivity |]. split; [reflexivity |]. split; [exact H1 | exact H2].
Defined.

Lemma shared_identity_loses_its_entry_witness :
  context.Value (Fixture.tagged "") clientID = Some (context.any_string "")
  /\ subsMx (module Fixture.idle) = false
  /\ subscribers
       (module (snd (HandleConn (Fixture.tagged "") stats.ConnEnd
                       (snd (HandleConn (Fixture.tagged "") stats.ConnBegin
                               (snd (HandleConn (Fixture.tagged "") stats.ConnBegin
                                       Fixture.idle))))))) !! "" = None.
Proof.
  pose proof (shared_identity_loses_its_entry (Fixture.tagged "") "" Fixture.idle
                eq_refl eq_refl) as [_ H].
  cbv zeta in H. destruct H as (_ & H2 & _).
  split; [reflexivity |]. split; [reflexivity | exact H2].
Defined.

Lemma SubscribeOnMetadata_registered_witness :
  subsMx (module Fixture.unsubscribed) = false
  /\ subscribers (module Fixture.unsubscribed) !! "c1"
     = Some {| subscriptions.ID := "c1"; subscriptions.Metadata := None |}
  /\ fst (SubscribeOnMetadata (W := Fixture.wire) {| pb.Id := "c1" |}
            [Recv None (Some (foreign_error "broken pipe"))] Fixture.unsubscribed)
     = Parked OnSelect
  /\ subsMx (module (snd (SubscribeOnMetadata (W := Fixture.wire) {| pb.Id := "c1" |}
                            [Recv None (Some (foreign_error "broken pipe"))]
                            Fixture.unsubscribed))) = false.
Proof.
  pose proof (SubscribeOnMetadata_registered (W := Fixture.wire) {| pb.Id := "c1" |}
                [Recv None (Some (foreign_error "broken pipe"))]
                Fixture.unsubscribed
                {| subscriptions.ID := "c1"; subscriptions.Metadata := None |}
                eq_refl eq_refl) as H.
  cbv zeta in H. destruct H as (H1 & H2 & _).
  split; [reflexivity |]. split; [reflexivity |]. split; [exact H1 | exact H2].
Defined.

Lemma UnsubscribeFromMetadata_detaches_witness :
  subsMx (module Fixture.subscribed) = false
  /\ subscribers (module Fixture.subscribed) !! "c1"
     = Some {| subscriptions.ID := "c1"; subscriptions.Metadata := Some 0%nat |}
  /\ subscribers (module (snd (UnsubscribeFromMetadata context.Background
                                 {| pb.Id := "c1" |} Fixture.subscribed))) !! "c1"
     = Some {| subscriptions.ID := "c1"; subscriptions.Metadata := None |}
  /\ chans (snd (UnsubscribeFromMetadata context.Background
                   {| pb.Id := "c1" |} Fixture.subscribed))
     = [subscriptions.ChanOpen].
Proof.
  pose proof (UnsubscribeFromMetadata_detaches context.Background {| pb.Id := "c1" |}
                Fixture.subscribed
                {| subscriptions.ID := "c1"; subscriptions.Metadata := Some 0%nat |}
                eq_refl eq_refl) as H.
  cbv zeta in H. destruct H as (_ & H2 & H3 & _).
  split; [reflexivity |]. split; [reflexivity |]. split; [exact H2 | exact H3].
Defined.

Lemma subscribe_then_unsubscribe_witness :
  subsMx (module Fixture.unsubscribed) = false
  /\ subscribers (module Fixture.unsubscribed) !! "c1"
     = Some {| subscriptions.ID := "c1"; subscriptions.Metadata := None |}
  /\ module (after_ops (W := Fixture.wire) [OpSubscribe "c1" [CtxDone]; OpUnsubscribe "c1"]
               Fixture.unsubscribed)
     = module Fixture.unsubscribed
  /\ chans (after_ops (W := Fixture.wire) [OpSubscribe "c1" [CtxDone]; OpUnsubscribe "c1"]
              Fixture.unsubscribed)
     = [subscriptions.ChanOpen].
Proof.
  pose proof (subscribe_then_unsubscribe (W := Fixture.wire) "c1" [CtxDone]
                Fixture.unsubscribed
                {| subscriptions.ID := "c1"; subscriptions.Metadata := None |}
                eq_refl eq_refl eq_refl) as H.
  cbv zeta in H. destruct H as (H1 & H2).
  split; [reflexivity |]. split; [reflexivity |]. split; [exact H1 | exact H2].
Defined.

Lemma held_mutex_freezes_the_registry_witness :
  subsMx (module Fixture.stuck) = true
  /\ after_ops (W := Fixture.wire)
       [OpUnsubscribe "c1"; OpEnd "c1"; OpBegin "c2"; OpSubscribe "c1" [CtxDone]]
       Fixture.stuck
     = Fixture.stuck.
Proof.
  split; [reflexivity |].
  apply (held_mutex_freezes_the_registry (W := Fixture.wire)). reflexivity.
Defined.

Lemma bundles_stay_keyed_witness :
  keyed Fixture.subscribed
  /\ keyed (after_ops (W := Fixture.wire)
              [OpBegin "c2"; OpSubscribe "c2" [CtxDone]; OpEnd "c1"] Fixture.subscribed).
Proof.
  assert (H : keyed Fixture.subscribed).
  { intros id s Hs. apply Fixture_subscribed_lookup in Hs as [-> ->]. reflexivity. }
  split; [exact H |].
  apply (bundles_stay_keyed (W := Fixture.wire)). exact H.
Defined.

Lemma channels_stay_live_and_unshared_witness :
  live Fixture.subscribed
  /\ unshared Fixture.subscribed
  /\ live (after_ops (W := Fixture.wire)
             [OpBegin "c2"; OpSubscribe "c2" [CtxDone]; OpSubscribe "c1" []]
             Fixture.subscribed)
  /\ unshared (after_ops (W := Fixture.wire)
                 [OpBegin "c2"; OpSubscribe "c2" [CtxDone]; OpSubscribe "c1" []]
                 Fixture.subscribed).
Proof.
  assert (Hl : live Fixture.subscribed).
  { intros id s ch Hs Hch. apply Fixture_subscribed_lookup in Hs as [-> ->].
    simpl in Hch. injection Hch as <-. reflexivity. }
  assert (Hu : unshared Fixture.subscribed).
  { intros id1 id2 s1 s2 ch H1 H2 _ _.
    apply Fixture_subscribed_lookup in H1 as [-> _].
    apply Fixture_subscribed_lookup in H2 as [-> _]. reflexivity. }
  split; [exact Hl |]. split; [exact Hu |].
  apply (channels_stay_live_and_unshared (W := Fixture.wire)); assumption.
Defined.

Lemma connect_hello_subscribe_witness :
  subsMx (module Fixture.idle) = false
  /\ exists ctx' w1 w2 id,
       TagConn ("", Some (foreign_error "entropy")) context.Background Fixture.idle
       = (Returned ctx', w1)
       /\ HandleConn ctx' stats.ConnBegin w1 = (Returned tt, w2)
       /\ Hello ctx' None w2 = (Returned (Some {| pb.HelloResponse_Id := id |}, None), w2)
       /\ fst (SubscribeOnMetadata (W := Fixture.wire) {| pb.Id := id |} [CtxDone] w2)
          = Returned None.
Proof.
  split; [reflexivity |].
  destruct (connect_hello_subscribe (W := Fixture.wire)
              ("", Some (foreign_error "entropy")) context.Background [CtxDone]
              Fixture.idle eq_refl)
    as (ctx' & w1 & w2 & id & H1 & H2 & H3 & H4 & _).
  exists ctx', w1, w2, id. split; [exact H1 |]. split; [exact H2 |].
  split; [exact H3 | exact H4].
Defined.

Lemma unreferenced_channel_is_never_closed_witness :
  (0 < List.length (chans (snd (UnsubscribeFromMetadata context.Background
                                  {| pb.Id := "c1" |} Fixture.subscribed))))%nat
  /\ chans (after_ops (W := Fixture.wire) [OpSubscribe "c1" [CtxDone]; OpEnd "c1"]
              (snd (UnsubscribeFromMetadata context.Background
                      {| pb.Id := "c1" |} Fixture.subscribed))) !! 0%nat
     = Some subscriptions.ChanOpen.
Proof.
  assert (Hlt : (0 < List.length (chans (snd (UnsubscribeFromMetadata context.Background
                                                {| pb.Id := "c1" |} Fixture.subscribed))))%nat)
    by (vm_compute; lia).
  split; [exact Hlt |].
  refine (eq_trans
            (unreferenced_channel_is_never_closed (W := Fixture.wire)
               [OpSubscribe "c1" [CtxDone]; OpEnd "c1"]
               (snd (UnsubscribeFromMetadata context.Background
                       {| pb.Id := "c1" |} Fixture.subscribed))
               0%nat _ Hlt) _).
  - intros id s Hs.
    rewrite (UnsubscribeFromMetadata_known context.Background {| pb.Id := "c1" |}
               Fixture.subscribed
               {| subscriptions.ID := "c1"; subscriptions.Metadata := Some 0%nat |}
               eq_refl eq_refl) in Hs.
    simpl in Hs. destruct (decide (id = "c1")) as [-> | Hne].
    + rewrite lookup_alter_eq, lookup_singleton_eq in Hs. simpl in Hs.
      injection Hs as <-. discriminate.
    + rewrite lookup_alter_ne, lookup_singleton_ne in Hs by congruence.
      discriminate.
  - reflexivity.
Defined.

Lemma connection_leaves_no_entry_witness :
  subsMx (module Fixture.subscribed) = false
  /\ subscribers (module Fixture.subscribed) !! "c2" = None
  /\ module (after_ops (W := Fixture.wire)
               [OpBegin "c2"; OpSubscribe "c2" [CtxDone]; OpEnd "c2"] Fixture.subscribed)
     = module Fixture.subscribed
  /\ chans (after_ops (W := Fixture.wire)
              [OpBegin "c2"; OpSubscribe "c2" [CtxDone]; OpEnd "c2"] Fixture.subscribed)
     = [subscriptions.ChanOpen; subscriptions.ChanClosed].
Proof.
  pose proof (connection_leaves_no_entry (W := Fixture.wire) "c2" [CtxDone]
                Fixture.subscribed eq_refl eq_refl) as H.
  cbv zeta in H. destruct H as (H1 & H2).
  split; [reflexivity |]. split; [reflexivity |]. split; [exact H1 | exact H2].
Defined.

(** ** The claims refuted as stated *)

(** C3 (as stated, refuted).  [TagConn] goes on with whatever
    [randomString] answered: when it fails for two connections, both carry
    the empty identity.  After begin, begin, end under that identity the
    hook has returned from every notification and the registry is empty,
    while one of the two connections is still open: the registry does not
    hold exactly the identities of the open connections. *)
Lemma shared_identity_refutes_open_connections :
  let evs := [Begin ""; Begin ""; End_ ""] in
  let w' := snd (notify_all evs Fixture.idle) in
  fst (TagConn ("", Some (foreign_error "entropy")) context.Background Fixture.idle)
  = Returned (conn_context "")
  /\ fst (notify_all evs Fixture.idle) = Returned tt
  /\ subscribers (module w') !! "" = None
  /\ "" ∈ open_after [] evs
  /\ ~ (forall id, id ∈ dom (subscribers (module w')) <-> id ∈ open_after [] evs).
Proof.
  cbv zeta.
  assert (Hgone : subscribers (module (snd (notify_all [Begin ""; Begin ""; End_ ""]
                                              Fixture.idle))) !! "" = None)
    by (vm_compute; reflexivity).
  assert (Hopen : "" ∈ open_after [] [Begin ""; Begin ""; End_ ""])
    by (simpl; apply list_elem_of_here).
  split_and!.
  - reflexivity.
  - vm_compute. reflexivity.
  - exact Hgone.
  - exact Hopen.
  - intros Hall. apply (proj2 (Hall "")) in Hopen.
    apply elem_of_dom in Hopen as [s Hs]. rewrite Hgone in Hs. discriminate.
Qed.

(** C9 (as stated, refuted).  With sort orders kept as strings, a listing
    request without [Page] reaches the storage with limit 0, offset 0 and
    the empty order, which is not the ascending one. *)
Lemma absent_page_is_not_ascending :
  calls (snd (ListMetadata (W := Fixture.wire) context.Background
                (Some {| pb.ListMetadataRequest_Page := None |}) Fixture.idle))
  = [@storage.CallList Fixture.types context.Background 0 0 ""]
  /\ order (@newPage Fixture.types None) = ""
  /\ order (@newPage Fixture.types None) <> @storage.SortOrderAsc Fixture.types.
Proof.
  split_and!; [reflexivity | reflexivity | discriminate].
Qed.
